(** * torchtune: Llama 3.2 Vision transform and preference losses

    A shallow embedding of
      - [torchtune/rlhf/loss/dpo.py]  ([DPOLoss], [RSOLoss]), and
      - [torchtune/models/llama3_2_vision/_transform.py]
        ([Llama3VisionTransform]),
    together with the properties the specification states about them. *)

From Stdlib Require Import Reals Lra Lia ZArith.
From stdpp Require Import gmap strings list fin_maps.

(** ** Outcomes of Python computations

    A Python call either returns a value or raises.  The exception classes
    are the ones the code can meet: [KeyError] and [TypeError] from the
    built-in mapping operations, and the error families of the external
    collaborators. *)

Inductive exn :=
| KeyError (key : string)
| TypeError
| AttributeError
| ShapeMismatchError
| TokenizationError
| ImageTransformError
| MaskAlignmentError
| LoadError.

Inductive outcome (A : Type) :=
| Ok (a : A)
| Raise (e : exn).
Arguments Ok {A} a.
Arguments Raise {A} e.

Definition obind {A B} (m : outcome A) (k : A -> outcome B) : outcome B :=
  match m with
  | Ok a => k a
  | Raise e => Raise e
  end.

Definition omap {A B} (f : A -> B) (m : outcome A) : outcome B :=
  obind m (fun a => Ok (f a)).

Declare Scope outcome_scope.
Delimit Scope outcome_scope with outcome.
Notation "'let!' x ':=' m 'in' k" := (obind m (fun x => k))
  (at level 10, x pattern, m at level 100, k at level 200) : outcome_scope.

(** ** The slice of [torch] used by the losses

    A tensor of shape [[b]] is the list of its [b] entries, idealised as
    real numbers (rounding of the float arithmetic is not modelled), plus
    the autograd flag [requires_grad].  Binary operators broadcast as torch
    does for one-dimensional operands: equal lengths combine entrywise, a
    length-one operand is stretched, anything else raises. *)

Module Torch.
Local Open Scope R_scope.
Local Open Scope outcome_scope.

Record Tensor := mkTensor { data : list R; requires_grad : bool }.

Definition broadcast2 (f : R -> R -> R) (a b : Tensor) : outcome Tensor :=
  let g := requires_grad a || requires_grad b in
  if Nat.eqb (length (data a)) (length (data b)) then
    Ok (mkTensor (zip_with f (data a) (data b)) g)
  else
    match data a, data b with
    | [x], ys => Ok (mkTensor ((fun y => f x y) <$> ys) g)
    | xs, [y] => Ok (mkTensor ((fun x => f x y) <$> xs) g)
    | _, _ => Raise ShapeMismatchError
    end.

(** [a - b] on tensors. *)
Definition sub (a b : Tensor) : outcome Tensor := broadcast2 Rminus a b.

(** Entrywise map; the result is part of the graph of its argument. *)
Definition pointwise (f : R -> R) (a : Tensor) : Tensor :=
  mkTensor (f <$> data a) (requires_grad a).

(** [-a], [c * a], [a * c] and [c - a] for a Python float [c]. *)
Definition neg (a : Tensor) : Tensor := pointwise Ropp a.
Definition scalar_mul (c : R) (a : Tensor) : Tensor := pointwise (fun x => c * x) a.
Definition mul_scalar (a : Tensor) (c : R) : Tensor := pointwise (fun x => x * c) a.
Definition scalar_sub (c : R) (a : Tensor) : Tensor := pointwise (fun x => c - x) a.

(** [a.detach()]: same data, cut from the autograd graph. *)
Definition detach (a : Tensor) : Tensor := mkTensor (data a) false.

(** The logistic sigmoid, [F.logsigmoid] and [torch.relu]. *)
Definition sigmoid (x : R) : R := / (1 + exp (- x)).
Definition logsigmoid_R (x : R) : R := ln (sigmoid x).
Definition relu_R (x : R) : R := Rmax 0 x.

Definition logsigmoid (a : Tensor) : Tensor := pointwise logsigmoid_R a.
Definition relu (a : Tensor) : Tensor := pointwise relu_R a.

End Torch.

(** ** [torchtune/rlhf/loss/dpo.py] *)

Module Rlhf.
Import Torch.
Local Open Scope R_scope.
Local Open Scope outcome_scope.

(** [torchtune.rlhf._types.ChosenRejectedOutputs]: the type declaration is
    not part of the two source files; its four fields are the ones the
    specification lists. *)
Record ChosenRejectedOutputs := {
  chosen_logps : Tensor;
  rejected_logps : Tensor;
  chosen_logits : Tensor;
  rejected_logits : Tensor
}.

Module DPOLoss.

Record t := { beta : R; label_smoothing : R }.

Definition default_beta : R := 1 / 10.
Definition default_label_smoothing : R := 0.

Definition __init__ (beta label_smoothing : R) : t :=
  {| beta := beta; label_smoothing := label_smoothing |}.

Definition forward (self : t) (policy_inputs reference_inputs : ChosenRejectedOutputs)
  : outcome (Tensor * Tensor * Tensor) :=
  let! pi_logratios := sub (chosen_logps policy_inputs) (rejected_logps policy_inputs) in
  let! ref_logratios := sub (chosen_logps reference_inputs) (rejected_logps reference_inputs) in
  let! logits := sub pi_logratios ref_logratios in
  let! losses :=
    sub (mul_scalar (neg (logsigmoid (scalar_mul (beta self) logits)))
                    (1 - label_smoothing self))
        (mul_scalar (logsigmoid (scalar_mul (- beta self) logits))
                    (label_smoothing self)) in
  let! chosen_diff := sub (chosen_logps policy_inputs) (chosen_logps reference_inputs) in
  let chosen_rewards := scalar_mul (beta self) (detach chosen_diff) in
  let! rejected_diff := sub (rejected_logps policy_inputs) (rejected_logps reference_inputs) in
  let rejected_rewards := scalar_mul (beta self) (detach rejected_diff) in
  Ok (losses, chosen_rewards, rejected_rewards).

End DPOLoss.

(** The class is wrapped by [@deprecated], which emits a notice and leaves
    [forward] as it is. *)
Module RSOLoss.

Record t := { gamma : R }.

Definition default_gamma : R := 1 / 10.

Definition __init__ (gamma : R) : t := {| gamma := gamma |}.

Definition forward (self : t) (policy_inputs reference_inputs : ChosenRejectedOutputs)
  : outcome (Tensor * Tensor * Tensor) :=
  let! pi_logratios := sub (chosen_logps policy_inputs) (rejected_logps policy_inputs) in
  let! ref_logratios := sub (chosen_logps reference_inputs) (rejected_logps reference_inputs) in
  let! logits := sub pi_logratios ref_logratios in
  let losses := relu (scalar_sub 1 (scalar_mul (gamma self) logits)) in
  let! chosen_diff := sub (chosen_logps policy_inputs) (chosen_logps reference_inputs) in
  let chosen_rewards := scalar_mul (gamma self) (detach chosen_diff) in
  let! rejected_diff := sub (rejected_logps policy_inputs) (rejected_logps reference_inputs) in
  let rejected_rewards := scalar_mul (gamma self) (detach rejected_diff) in
  Ok (losses, chosen_rewards, rejected_rewards).

End RSOLoss.

End Rlhf.

(** ** Python objects and the store

    Objects live in a store indexed by references; a value kept in a mapping
    or in an attribute is either immediate or a reference into the store.
    Tensors, images and templates are produced and consumed by the external
    collaborators only, so their types stay abstract. *)

Class Payload := {
  RawImage : Type;        (* an image embedded in a message *)
  TileTensor : Type;      (* [out["image"]]: the tiles of one image *)
  AspectRatio : Type;     (* [out["aspect_ratio"]] *)
  EncoderMask : Type;     (* the cross-attention mask *)
  PromptTemplate : Type;
  ChannelStats : Type;    (* [image_mean], [image_std] *)
  TokenizerModel : Type   (* the loaded tiktoken model *)
}.

(** References into the store. *)
Abbreviation loc := positive (only parsing).

Section Objects.
Context {P : Payload}.

(** Modelled from the spec: [torchtune.data.Message] is not among the source
    files.  A message is a role-tagged unit of text with zero or more
    embedded media items, and [get_media] lists them in order. *)
Record Message := {
  role : string;
  text : string;
  media : list RawImage
}.

Definition get_media (message : Message) : list RawImage := media message.

(** [{"images": [...], "aspect_ratio": [...]}] *)
Record EncoderInput := {
  images : list TileTensor;
  aspect_ratio : list AspectRatio
}.

(** The result of the image transform: [{"image": ..., "aspect_ratio": ...}]. *)
Record ImageOut := {
  out_image : TileTensor;
  out_aspect_ratio : AspectRatio
}.

(** Values stored under the keys of a sample.  The lists and the dictionary
    behind [encoder_input], [tokens] and [mask] are created by the stage
    that stores them and are reached through the sample only, and the
    transform only reads [messages]; they are kept by value.  The sample
    itself is shared with the caller and lives in the store. *)
Inductive value :=
| VNone
| VInt (n : Z)
| VStr (s : string)
| VMessages (ms : list Message)
| VEncoderInput (e : EncoderInput)
| VTokens (ts : list Z)
| VMask (bs : list bool)
| VEncoderMask (m : EncoderMask).

End Objects.

(** The attributes of the three owned components that the transform reads.
    Mutable containers ([stop_tokens], [special_tokens]) are held by
    reference. *)
Module Llama3Tokenizer.
Record t {P : Payload} := {
  stop_tokens : loc;
  special_tokens : loc;
  pad_id : Z;
  image_id : Z;
  base_vocab_size : Z;
  vocab_size : Z;
  max_seq_len : option Z;
  prompt_template : option PromptTemplate;
  tt_model : TokenizerModel
}.
End Llama3Tokenizer.

Module CLIPImageTransform.
Record t {P : Payload} := {
  image_mean : option ChannelStats;
  image_std : option ChannelStats;
  tile_size : Z;
  possible_resolutions : list (Z * Z);
  max_num_tiles : Z;
  resample : string;
  resize_to_max_canvas : bool
}.
End CLIPImageTransform.

Module VisionCrossAttentionMask.
Record t := {
  tile_size : Z;
  patch_size : Z;
  image_token_id : Z;
  patches_per_tile : Z
}.
End VisionCrossAttentionMask.

Section Store.
Context {P : Payload}.

(** The instance attributes of [Llama3VisionTransform], as [__init__]
    assigns them. *)
Record Llama3VisionTransform := {
  tokenizer : loc;
  transform_image : loc;
  xattn_mask : loc;
  stop_tokens : loc;
  special_tokens : loc;
  max_seq_len : option Z;
  max_num_tiles : Z;
  image_seq_len : Z;
  prompt_template : option PromptTemplate;
  pad_id : Z
}.

Inductive obj :=
| OSample (d : gmap string value)          (* a mapping [str -> Any] *)
| OIntList (l : list Z)                    (* [list[int]] *)
| OTokenTable (d : gmap string Z)          (* [dict[str, int]] *)
| OTokenizer (t : Llama3Tokenizer.t)
| OImageTransform (c : CLIPImageTransform.t)
| OCrossAttentionMask (x : VisionCrossAttentionMask.t)
| OTransform (s : Llama3VisionTransform).

End Store.

Abbreviation heap := (gmap loc obj) (only parsing).

Section Monad.
Context {P : Payload}.

(** A computation runs on the store and returns or raises; the store
    survives a raise. *)
Definition M (A : Type) : Type := heap -> outcome A * heap.

Definition ret {A} (a : A) : M A := fun h => (Ok a, h).

Definition raise {A} (e : exn) : M A := fun h => (Raise e, h).

Definition bind {A B} (m : M A) (k : A -> M B) : M B := fun h =>
  match m h with
  | (Ok a, h') => k a h'
  | (Raise e, h') => (Raise e, h')
  end.

(** A computation that only reads the store. *)
Definition read {A} (f : heap -> outcome A) : M A := fun h => (f h, h).

Definition alloc (o : obj) : M loc := fun h =>
  let l := fresh (dom h) in (Ok l, <[l := o]> h).

End Monad.

Declare Scope py_scope.
Delimit Scope py_scope with py.
Notation "x <- m ;; k" := (bind m (fun x => k))
  (at level 100, m at next level, right associativity) : py_scope.
Notation "m ;; k" := (bind m (fun _ => k))
  (at level 100, right associativity) : py_scope.

Section Builtins.
Context {P : Payload}.
Local Open Scope py_scope.

(** [d[key]] *)
Definition getitem (d : loc) (key : string) : M value := fun h =>
  match h !! d with
  | Some (OSample m) =>
      match m !! key with
      | Some v => (Ok v, h)
      | None => (Raise (KeyError key), h)
      end
  | _ => (Raise TypeError, h)
  end.

(** [d[key] = v] *)
Definition setitem (d : loc) (key : string) (v : value) : M unit := fun h =>
  match h !! d with
  | Some (OSample m) => (Ok tt, <[d := OSample (<[key := v]> m)]> h)
  | _ => (Raise TypeError, h)
  end.

(** [d.pop(key)]: the value under [key], which is removed from [d]. *)
Definition pop (d : loc) (key : string) : M value := fun h =>
  match h !! d with
  | Some (OSample m) =>
      match m !! key with
      | Some v => (Ok v, <[d := OSample (delete key m)]> h)
      | None => (Raise (KeyError key), h)
      end
  | _ => (Raise AttributeError, h)
  end.

(** Attribute reads, by the class of the receiver. *)
Definition tokenizer_attr {A} (l : loc) (f : Llama3Tokenizer.t -> A) : M A := fun h =>
  match h !! l with
  | Some (OTokenizer t) => (Ok (f t), h)
  | _ => (Raise AttributeError, h)
  end.

Definition image_transform_attr {A} (l : loc) (f : CLIPImageTransform.t -> A) : M A := fun h =>
  match h !! l with
  | Some (OImageTransform c) => (Ok (f c), h)
  | _ => (Raise AttributeError, h)
  end.

Definition xattn_attr {A} (l : loc) (f : VisionCrossAttentionMask.t -> A) : M A := fun h =>
  match h !! l with
  | Some (OCrossAttentionMask x) => (Ok (f x), h)
  | _ => (Raise AttributeError, h)
  end.

Definition transform_attr {A} (l : loc) (f : Llama3VisionTransform -> A) : M A := fun h =>
  match h !! l with
  | Some (OTransform s) => (Ok (f s), h)
  | _ => (Raise AttributeError, h)
  end.

(** Dynamic checks on the values found in a sample. *)
Definition as_messages (v : value) : M (list Message) :=
  match v with VMessages ms => ret ms | _ => raise TypeError end.

Definition as_tokens (v : value) : M (list Z) :=
  match v with VTokens ts => ret ts | _ => raise TypeError end.

Definition as_encoder_input (v : value) : M EncoderInput :=
  match v with VEncoderInput e => ret e | _ => raise TypeError end.

(** [for x in xs: acc = body(acc, x)] *)
Fixpoint for_each {A S} (xs : list A) (body : S -> A -> M S) (acc : S) : M S :=
  match xs with
  | [] => ret acc
  | x :: xs' => acc' <- body acc x ;; for_each xs' body acc'
  end.

End Builtins.

(** ** The external collaborators

    The tokenizer, the image transform and the mask builder are defined
    outside the two source files.  Their constructors allocate in the store;
    their algorithms are functions of the component's attributes that may
    raise, and the tokenizer's may read the store (its token tables live
    there). *)

Class External {P : Payload} := {
  (* [llama3_tokenizer(path, special_tokens_path=, max_seq_len=, prompt_template=)] *)
  llama3_tokenizer :
    string -> option string -> option Z -> option PromptTemplate -> M loc;
  (* [CLIPImageTransform(image_mean=, image_std=, tile_size=,
     possible_resolutions=, max_num_tiles=, resample=, resize_to_max_canvas=)] *)
  CLIPImageTransform_new :
    option ChannelStats -> option ChannelStats -> Z -> option (list (Z * Z)) ->
    Z -> string -> bool -> M loc;
  (* [VisionCrossAttentionMask(tile_size=, patch_size=, image_token_id=)] *)
  VisionCrossAttentionMask_new : Z -> Z -> Z -> M loc;
  tokenizer_encode :
    Llama3Tokenizer.t -> string -> bool -> bool -> heap -> outcome (list Z);
  tokenizer_decode :
    Llama3Tokenizer.t -> list Z -> bool -> bool -> heap -> outcome string;
  tokenizer_tokenize_message :
    Llama3Tokenizer.t -> Message -> bool -> bool -> heap -> outcome (list Z);
  tokenizer_tokenize_messages :
    Llama3Tokenizer.t -> list Message -> bool -> heap -> outcome (list Z * list bool);
  (* tokens and mask of a whole sample: template, tokenization, truncation *)
  tokenizer_sample :
    Llama3Tokenizer.t -> list Message -> bool -> heap -> outcome (list Z * list bool);
  (* resize, tile and normalise one image *)
  clip_transform : CLIPImageTransform.t -> RawImage -> bool -> outcome ImageOut;
  (* the cross-attention mask of a token sequence and its images *)
  xattn_build :
    VisionCrossAttentionMask.t -> list Z -> EncoderInput -> bool -> outcome EncoderMask
}.

Section Collaborators.
Context {P : Payload} {E : External}.
Local Open Scope py_scope.

(** Method calls on the owned tokenizer. *)
Definition Llama3Tokenizer_encode (l : loc) (text : string) (add_bos add_eos : bool)
  : M (list Z) :=
  t <- tokenizer_attr l (fun t => t) ;;
  read (tokenizer_encode t text add_bos add_eos).

Definition Llama3Tokenizer_decode (l : loc) (token_ids : list Z)
    (truncate_at_eos skip_special_tokens : bool) : M string :=
  t <- tokenizer_attr l (fun t => t) ;;
  read (tokenizer_decode t token_ids truncate_at_eos skip_special_tokens).

Definition Llama3Tokenizer_tokenize_message (l : loc) (message : Message)
    (add_start_tokens add_end_tokens : bool) : M (list Z) :=
  t <- tokenizer_attr l (fun t => t) ;;
  read (tokenizer_tokenize_message t message add_start_tokens add_end_tokens).

Definition Llama3Tokenizer_tokenize_messages (l : loc) (messages : list Message)
    (add_end_tokens : bool) : M (list Z * list bool) :=
  t <- tokenizer_attr l (fun t => t) ;;
  read (tokenizer_tokenize_messages t messages add_end_tokens).

(** Modelled from the spec: the tokenizer's sample-level call is not among
    the source files.  Per the specification it tokenizes the messages of
    the sample, adds [tokens] and [mask] to it and returns the sample.  It
    consumes the messages: it takes them out of the mapping
    ([sample.pop("messages")]) before it tokenizes them, which is why the
    docstring of [__call__] lists [tokens], [mask], [encoder_input] and
    [encoder_mask], and not [messages], as the fields of the result. *)
Definition Llama3Tokenizer_call (l : loc) (sample : loc) (inference : bool) : M loc :=
  t <- tokenizer_attr l (fun t => t) ;;
  v <- pop sample "messages" ;;
  messages <- as_messages v ;;
  tm <- read (tokenizer_sample t messages inference) ;;
  setitem sample "tokens" (VTokens (fst tm)) ;;
  setitem sample "mask" (VMask (snd tm)) ;;
  ret sample.

(** Modelled from the spec: the image transform's call is not among the
    source files.  It maps [{"image": image}] to the tiles of the image and
    its aspect ratio, and is a stateless transform over its input. *)
Definition CLIPImageTransform_call (l : loc) (image : RawImage) (inference : bool)
  : M ImageOut :=
  c <- image_transform_attr l (fun c => c) ;;
  read (fun _ => clip_transform c image inference).

(** Modelled from the spec: the mask builder's sample-level call is not
    among the source files.  Per the specification it reads [tokens] and
    [encoder_input], adds [encoder_mask] and returns the sample. *)
Definition VisionCrossAttentionMask_call (l : loc) (sample : loc) (inference : bool)
  : M loc :=
  x <- xattn_attr l (fun x => x) ;;
  v <- getitem sample "tokens" ;;
  tokens <- as_tokens v ;;
  v <- getitem sample "encoder_input" ;;
  encoder_input <- as_encoder_input v ;;
  encoder_mask <- read (fun _ => xattn_build x tokens encoder_input inference) ;;
  setitem sample "encoder_mask" (VEncoderMask encoder_mask) ;;
  ret sample.

End Collaborators.

(** ** [torchtune/models/llama3_2_vision/_transform.py] *)

Section Transform.
Context {P : Payload} {E : External}.
Local Open Scope py_scope.
Local Open Scope Z_scope.

Definition default_max_num_tiles : Z := 4.

(** The constructor.  The new object enters the store once all its
    attributes are computed, so a construction that raises leaves no
    transform behind; the attribute reads follow the order of the
    assignments in the source. *)

Definition __init__ (path : string) (tile_size patch_size max_num_tiles : Z)
    (special_tokens_path : option string) (max_seq_len : option Z)
    (image_mean image_std : option ChannelStats)
    (prompt_template : option PromptTemplate) : M loc :=
  tokenizer <- llama3_tokenizer path special_tokens_path max_seq_len prompt_template ;;
  transform_image <-
    CLIPImageTransform_new image_mean image_std tile_size None max_num_tiles
      "bilinear" false ;;
  image_id <- tokenizer_attr tokenizer Llama3Tokenizer.image_id ;;
  xattn_mask <- VisionCrossAttentionMask_new tile_size patch_size image_id ;;
  stop_tokens <- tokenizer_attr tokenizer Llama3Tokenizer.stop_tokens ;;
  special_tokens <- tokenizer_attr tokenizer Llama3Tokenizer.special_tokens ;;
  patches_per_tile <- xattn_attr xattn_mask VisionCrossAttentionMask.patches_per_tile ;;
  pad_id <- tokenizer_attr tokenizer Llama3Tokenizer.pad_id ;;
  alloc (OTransform {|
    tokenizer := tokenizer;
    transform_image := transform_image;
    xattn_mask := xattn_mask;
    stop_tokens := stop_tokens;
    special_tokens := special_tokens;
    max_seq_len := max_seq_len;
    max_num_tiles := max_num_tiles;
    image_seq_len := max_num_tiles * (patches_per_tile + 1);
    prompt_template := prompt_template;
    pad_id := pad_id
  |}).

(** The two [@property] methods. *)
Definition base_vocab_size (self : loc) : M Z :=
  tokenizer <- transform_attr self tokenizer ;;
  tokenizer_attr tokenizer Llama3Tokenizer.base_vocab_size.

Definition vocab_size (self : loc) : M Z :=
  tokenizer <- transform_attr self tokenizer ;;
  tokenizer_attr tokenizer Llama3Tokenizer.vocab_size.

Definition encode (self : loc) (text : string) (add_bos add_eos : bool) : M (list Z) :=
  tokenizer <- transform_attr self tokenizer ;;
  Llama3Tokenizer_encode tokenizer text add_bos add_eos.

Definition decode (self : loc) (token_ids : list Z)
    (truncate_at_eos skip_special_tokens : bool) : M string :=
  tokenizer <- transform_attr self tokenizer ;;
  Llama3Tokenizer_decode tokenizer token_ids truncate_at_eos skip_special_tokens.

Definition tokenize_message (self : loc) (message : Message)
    (add_start_tokens add_end_tokens : bool) : M (list Z) :=
  tokenizer <- transform_attr self tokenizer ;;
  Llama3Tokenizer_tokenize_message tokenizer message add_start_tokens add_end_tokens.

Definition tokenize_messages (self : loc) (messages : list Message)
    (add_end_tokens : bool) : M (list Z * list bool) :=
  tokenizer <- transform_attr self tokenizer ;;
  Llama3Tokenizer_tokenize_messages tokenizer messages add_end_tokens.

(** The body of the inner loop: transform one image and append its two
    results. *)
Definition append_image (self : loc) (inference : bool)
    (encoder_input : EncoderInput) (image : RawImage) : M EncoderInput :=
  transform_image <- transform_attr self transform_image ;;
  out <- CLIPImageTransform_call transform_image image inference ;;
  ret {| images := images encoder_input ++ [out_image out];
         aspect_ratio := aspect_ratio encoder_input ++ [out_aspect_ratio out] |}.

Definition __call__ (self : loc) (sample : loc) (inference : bool) : M loc :=
  let encoder_input := {| images := []; aspect_ratio := [] |} in
  v <- getitem sample "messages" ;;
  messages <- as_messages v ;;
  encoder_input <-
    for_each messages (fun encoder_input message =>
      for_each (get_media message) (append_image self inference) encoder_input)
      encoder_input ;;
  setitem sample "encoder_input" (VEncoderInput encoder_input) ;;
  tokenizer <- transform_attr self tokenizer ;;
  sample <- Llama3Tokenizer_call tokenizer sample inference ;;
  xattn_mask <- transform_attr self xattn_mask ;;
  sample <- VisionCrossAttentionMask_call xattn_mask sample inference ;;
  ret sample.

(** The prefix of [__call__] up to and including
    [sample["encoder_input"] = encoder_input], and the two stages after it. *)
Definition image_stage (self : loc) (sample : loc) (inference : bool) : M unit :=
  let encoder_input := {| images := []; aspect_ratio := [] |} in
  v <- getitem sample "messages" ;;
  messages <- as_messages v ;;
  encoder_input <-
    for_each messages (fun encoder_input message =>
      for_each (get_media message) (append_image self inference) encoder_input)
      encoder_input ;;
  setitem sample "encoder_input" (VEncoderInput encoder_input).

Definition tokenizer_stage (self : loc) (sample : loc) (inference : bool) : M loc :=
  tokenizer <- transform_attr self tokenizer ;;
  Llama3Tokenizer_call tokenizer sample inference.

Definition mask_stage (self : loc) (sample : loc) (inference : bool) : M loc :=
  xattn_mask <- transform_attr self xattn_mask ;;
  VisionCrossAttentionMask_call xattn_mask sample inference.

End Transform.

(** * Notions used in the statements *)

Module RlhfSpec.
Import Torch Rlhf.
Local Open Scope R_scope.

(** The specification's formulas, entry by entry. *)
Definition spec_logits (pc pr rc rr : R) : R := (pc - pr) - (rc - rr).

Definition spec_dpo_loss (beta label_smoothing logits : R) : R :=
  (- ln (sigmoid (beta * logits))) * (1 - label_smoothing)
  - ln (sigmoid (- (beta * logits))) * label_smoothing.

Definition spec_hinge_loss (gamma logits : R) : R := Rmax 0 (1 - gamma * logits).

Definition spec_reward (beta policy_logp reference_logp : R) : R :=
  beta * (policy_logp - reference_logp).

(** The two rewards of a result of [forward]. *)
Definition rewards (o : outcome (Tensor * Tensor * Tensor)) : outcome (Tensor * Tensor) :=
  omap (fun out => (snd (fst out), snd out)) o.

(** Both log-probability tensors of [x] have shape [[n]]. *)
Definition batch_shape (n : nat) (x : ChosenRejectedOutputs) : Prop :=
  length (data (chosen_logps x)) = n /\ length (data (rejected_logps x)) = n.

(** Certified lower bounds of [exp] at a rational, in fixed point with
    eighteen decimals: [1 + x / 2^k] squared [k] times, rounding down. *)
Definition scale : Z := 10 ^ 18.

Definition sq_down (k : nat) (a : Z) : Z :=
  Nat.iter k (fun a => (a * a / scale)%Z) a.

Definition exp_lb (k : nat) (num den : Z) : Z :=
  sq_down k (scale + num * scale / (den * 2 ^ Z.of_nat k))%Z.

(** The inputs of the worked example: one preference pair. *)
Definition scalar_tensor (x : R) : Tensor := mkTensor [x] true.

Definition example_policy : ChosenRejectedOutputs :=
  {| chosen_logps := scalar_tensor 2; rejected_logps := scalar_tensor 1;
     chosen_logits := scalar_tensor 0; rejected_logits := scalar_tensor 0 |}.

Definition example_reference : ChosenRejectedOutputs :=
  {| chosen_logps := mkTensor [1] false; rejected_logps := mkTensor [1] false;
     chosen_logits := mkTensor [0] false; rejected_logits := mkTensor [0] false |}.

(** The logits both losses compute from the four log-probability tensors. *)
Definition logits_of (p r : ChosenRejectedOutputs) : list R :=
  zip_with Rminus
    (zip_with Rminus (data (chosen_logps p)) (data (rejected_logps p)))
    (zip_with Rminus (data (chosen_logps r)) (data (rejected_logps r))).

(** Whether any of the four log-probability tensors requires gradient. *)
Definition inputs_require_grad (p r : ChosenRejectedOutputs) : bool :=
  requires_grad (chosen_logps p) || requires_grad (rejected_logps p)
  || (requires_grad (chosen_logps r) || requires_grad (rejected_logps r)).


(** A batch of two preference pairs: the policy prefers the chosen answer
    of the first pair and the rejected answer of the second. *)
Definition batch_policy : ChosenRejectedOutputs :=
  {| chosen_logps := mkTensor [2; 1 / 2] true;
     rejected_logps := mkTensor [1; 3 / 2] true;
     chosen_logits := mkTensor [0; 0] true;
     rejected_logits := mkTensor [0; 0] true |}.

Definition batch_reference : ChosenRejectedOutputs :=
  {| chosen_logps := mkTensor [1; 1] false;
     rejected_logps := mkTensor [1; 1] false;
     chosen_logits := mkTensor [0; 0] false;
     rejected_logits := mkTensor [0; 0] false |}.

End RlhfSpec.

Section TransformSpec.
Context {P : Payload} {E : External}.

(** The media items of a list of messages in encounter order: messages top
    to bottom, each message's media list left to right. *)
Definition all_media (messages : list Message) : list RawImage :=
  concat (get_media <$> messages).

(** [out] is what the transform's image component returns for [image]. *)
Definition transformed_by (self : loc) (inference : bool) (h : heap)
    (image : RawImage) (out : ImageOut) : Prop :=
  exists s c,
    h !! self = Some (OTransform s) /\
    h !! transform_image s = Some (OImageTransform c) /\
    clip_transform c image inference = Ok out.

(** The store changed at most in the contents of the mapping [sample]. *)
Definition only_sample (sample : loc) (h h' : heap) : Prop :=
  h' = h \/
  exists d d', h !! sample = Some (OSample d) /\ h' = <[sample := OSample d']> h.

(** A computation that leaves the store as it is, whether it returns or
    raises. *)
Definition reads_only {A} (m : M A) : Prop :=
  forall h, snd (m h) = h.


End TransformSpec.

(** ** A concrete set of collaborators

    Small stand-ins for the external components, used to run the transform
    on concrete samples: images are [(width, height)] pairs, a tokenizer that
    emits the image token once per media item and once for the text
    ["<|image|>"], and a mask builder that refuses more image tokens than
    images. *)

Module Example.
Local Open Scope py_scope.
Local Open Scope Z_scope.

#[export] Instance payload : Payload := {|
  RawImage := Z * Z;
  TileTensor := Z * Z;
  AspectRatio := Z * Z;
  EncoderMask := list (list bool);
  PromptTemplate := string;
  ChannelStats := list Z;
  TokenizerModel := string
|}.

Definition ex_llama3_tokenizer (path : string) (special_tokens_path : option string)
    (max_seq_len : option Z) (prompt_template : option string) : M loc :=
  if String.eqb path "" then raise LoadError
  else
    stop_tokens <- alloc (OIntList [128001; 128009]) ;;
    special_tokens <- alloc (OTokenTable {[ "<|image|>" := 128256 ]}) ;;
    alloc (OTokenizer {|
      Llama3Tokenizer.stop_tokens := stop_tokens;
      Llama3Tokenizer.special_tokens := special_tokens;
      Llama3Tokenizer.pad_id := 128004;
      Llama3Tokenizer.image_id := 128256;
      Llama3Tokenizer.base_vocab_size := 128000;
      Llama3Tokenizer.vocab_size := 128257;
      Llama3Tokenizer.max_seq_len := max_seq_len;
      Llama3Tokenizer.prompt_template := prompt_template;
      Llama3Tokenizer.tt_model := path
    |}).

Definition ex_CLIPImageTransform_new (image_mean image_std : option (list Z))
    (tile_size : Z) (possible_resolutions : option (list (Z * Z)))
    (max_num_tiles : Z) (resample : string) (resize_to_max_canvas : bool) : M loc :=
  alloc (OImageTransform {|
    CLIPImageTransform.image_mean := image_mean;
    CLIPImageTransform.image_std := image_std;
    CLIPImageTransform.tile_size := tile_size;
    CLIPImageTransform.possible_resolutions :=
      match possible_resolutions with
      | Some rs => rs
      | None => [(tile_size, tile_size)]
      end;
    CLIPImageTransform.max_num_tiles := max_num_tiles;
    CLIPImageTransform.resample := resample;
    CLIPImageTransform.resize_to_max_canvas := resize_to_max_canvas
  |}).

Definition ex_VisionCrossAttentionMask_new (tile_size patch_size image_token_id : Z)
  : M loc :=
  if patch_size =? 0 then raise TypeError
  else
    alloc (OCrossAttentionMask {|
      VisionCrossAttentionMask.tile_size := tile_size;
      VisionCrossAttentionMask.patch_size := patch_size;
      VisionCrossAttentionMask.image_token_id := image_token_id;
      VisionCrossAttentionMask.patches_per_tile := (tile_size / patch_size) ^ 2
    |}).

Definition ex_message_tokens (t : Llama3Tokenizer.t) (message : Message) : list Z :=
  ((fun _ => Llama3Tokenizer.image_id t) <$> media message) ++
  (if String.eqb (text message) "<|image|>"
   then [Llama3Tokenizer.image_id t]
   else [Z.of_nat (String.length (text message))]).

Definition ex_tokenize_message (t : Llama3Tokenizer.t) (message : Message)
    (add_start_tokens add_end_tokens : bool) (h : heap) : outcome (list Z) :=
  if String.eqb (role message) "" then Raise TokenizationError
  else Ok ((if add_start_tokens then [128006] else []) ++ ex_message_tokens t message ++
           (if add_end_tokens then [128009] else [])).

Fixpoint ex_tokenize_all (t : Llama3Tokenizer.t) (messages : list Message) (h : heap)
  : outcome (list Z) :=
  match messages with
  | [] => Ok []
  | m :: ms =>
      obind (ex_tokenize_message t m true true h) (fun ts =>
      obind (ex_tokenize_all t ms h) (fun rest => Ok (ts ++ rest)))
  end.

Definition ex_tokenize_messages (t : Llama3Tokenizer.t) (messages : list Message)
    (add_end_tokens : bool) (h : heap) : outcome (list Z * list bool) :=
  obind (ex_tokenize_all t messages h) (fun ts =>
  let ts := [128000] ++ ts ++ (if add_end_tokens then [128001] else []) in
  let ts := match Llama3Tokenizer.max_seq_len t with
            | Some n => take (Z.to_nat n) ts
            | None => ts
            end in
  Ok (ts, (fun _ => true) <$> ts)).

Definition ex_encode (t : Llama3Tokenizer.t) (text : string) (add_bos add_eos : bool)
    (h : heap) : outcome (list Z) :=
  Ok ((if add_bos then [128000] else []) ++ [Z.of_nat (String.length text)] ++
      (if add_eos then [128001] else [])).

Definition ex_decode (t : Llama3Tokenizer.t) (token_ids : list Z)
    (truncate_at_eos skip_special_tokens : bool) (h : heap) : outcome string :=
  if forallb (fun i => i <? Llama3Tokenizer.vocab_size t) token_ids
  then Ok "" else Raise TokenizationError.

Definition ex_clip_transform (c : CLIPImageTransform.t) (image : Z * Z)
    (inference : bool) : outcome ImageOut :=
  let '(w, ht) := image in
  if (w <=? 0) || (ht <=? 0) then Raise ImageTransformError
  else
    let size := CLIPImageTransform.tile_size c in
    Ok {| out_image := image;
          out_aspect_ratio := ((ht + size - 1) / size, (w + size - 1) / size) |}.

Definition ex_xattn_build (x : VisionCrossAttentionMask.t) (tokens : list Z)
    (encoder_input : EncoderInput) (inference : bool) : outcome (list (list bool)) :=
  let occurrences :=
    length (filter (fun t => t = VisionCrossAttentionMask.image_token_id x) tokens) in
  if (length (images encoder_input) <? occurrences)%nat then Raise MaskAlignmentError
  else Ok ((fun _ => (fun _ => true) <$> images encoder_input) <$> tokens).

#[export] Instance external : External := {|
  llama3_tokenizer := ex_llama3_tokenizer;
  CLIPImageTransform_new := ex_CLIPImageTransform_new;
  VisionCrossAttentionMask_new := ex_VisionCrossAttentionMask_new;
  tokenizer_encode := ex_encode;
  tokenizer_decode := ex_decode;
  tokenizer_tokenize_message := ex_tokenize_message;
  tokenizer_tokenize_messages := ex_tokenize_messages;
  tokenizer_sample := fun t ms inference h => ex_tokenize_messages t ms (negb inference) h;
  clip_transform := ex_clip_transform;
  xattn_build := ex_xattn_build
|}.

(** A transform built on the empty store with [tile_size = 224],
    [patch_size = 14] and four tiles. *)
Definition ex_built : outcome loc * heap :=
  __init__ "/path/to/tokenizer.model" 224 14 default_max_num_tiles
    None None None None None ∅.

Definition ex_self : loc := 6%positive.
Definition ex_tokenizer : loc := 3%positive.
Definition ex_heap : heap := snd ex_built.

(** Samples: two messages with three images in all; a text-only message; a
    message with an empty role, which the tokenizer rejects; a text-only
    message whose text is the image placeholder, which the mask builder
    rejects. *)
Definition ex_messages : list Message :=
  [ {| role := "user"; text := "compare"; media := [(448, 224); (224, 224)] |};
    {| role := "assistant"; text := "done"; media := [(224, 672)] |} ].

Definition ex_sample : loc := 7%positive.

Definition with_sample (messages : list Message) : heap :=
  <[ex_sample := OSample {[ "messages" := VMessages messages ]}]> ex_heap.

Definition ex_text_only : list Message :=
  [ {| role := "user"; text := "hello"; media := [] |} ].

Definition ex_bad_role : list Message :=
  [ {| role := ""; text := "hello"; media := [(224, 224)] |} ].

Definition ex_orphan_token : list Message :=
  [ {| role := "user"; text := "<|image|>"; media := [] |} ].

(** The tokenizer after client code re-assigns [stop_tokens],
    [special_tokens], [pad_id] and the vocabulary size to new values (a new
    list and a new table among them). *)
Definition ex_tokenizer_reassigned : Llama3Tokenizer.t := {|
  Llama3Tokenizer.stop_tokens := 9%positive;
  Llama3Tokenizer.special_tokens := 10%positive;
  Llama3Tokenizer.pad_id := 0;
  Llama3Tokenizer.image_id := 128256;
  Llama3Tokenizer.base_vocab_size := 128000;
  Llama3Tokenizer.vocab_size := 128300;
  Llama3Tokenizer.max_seq_len := None;
  Llama3Tokenizer.prompt_template := None;
  Llama3Tokenizer.tt_model := "/path/to/tokenizer.model"
|}.

(** The attributes [__init__] gave the transform. *)
Definition ex_transform : Llama3VisionTransform := {|
  tokenizer := 3%positive;
  transform_image := 4%positive;
  xattn_mask := 5%positive;
  stop_tokens := 1%positive;
  special_tokens := 2%positive;
  max_seq_len := None;
  max_num_tiles := 4;
  image_seq_len := 1028;
  prompt_template := None;
  pad_id := 128004
|}.

(** The store after the image stage, and after the whole call. *)
Definition ex_after_images (messages : list Message) : heap :=
  snd (image_stage ex_self ex_sample false (with_sample messages)).


(** The three components [__init__] built. *)
Definition ex_tokenizer_obj : Llama3Tokenizer.t := {|
  Llama3Tokenizer.stop_tokens := 1%positive;
  Llama3Tokenizer.special_tokens := 2%positive;
  Llama3Tokenizer.pad_id := 128004;
  Llama3Tokenizer.image_id := 128256;
  Llama3Tokenizer.base_vocab_size := 128000;
  Llama3Tokenizer.vocab_size := 128257;
  Llama3Tokenizer.max_seq_len := None;
  Llama3Tokenizer.prompt_template := None;
  Llama3Tokenizer.tt_model := "/path/to/tokenizer.model"
|}.

Definition ex_image_transform_obj : CLIPImageTransform.t := {|
  CLIPImageTransform.image_mean := None;
  CLIPImageTransform.image_std := None;
  CLIPImageTransform.tile_size := 224;
  CLIPImageTransform.possible_resolutions := [(224, 224)];
  CLIPImageTransform.max_num_tiles := 4;
  CLIPImageTransform.resample := "bilinear";
  CLIPImageTransform.resize_to_max_canvas := false
|}.

Definition ex_xattn_obj : VisionCrossAttentionMask.t := {|
  VisionCrossAttentionMask.tile_size := 224;
  VisionCrossAttentionMask.patch_size := 14;
  VisionCrossAttentionMask.image_token_id := 128256;
  VisionCrossAttentionMask.patches_per_tile := 256
|}.

(** A store whose sample holds the mapping [d]. *)
Definition with_mapping (d : gmap string value) : heap :=
  <[ex_sample := OSample d]> ex_heap.

(** A message whose second image has no width. *)
Definition ex_bad_image : list Message :=
  [ {| role := "user"; text := "look";
       media := [(224, 224); (0, 224); (224, 448)] |} ].

Definition ex_heap_reassigned : heap :=
  <[ex_tokenizer := OTokenizer ex_tokenizer_reassigned]>
    (<[10%positive := OTokenTable ∅]>
       (<[9%positive := OIntList [128001]]> ex_heap)).

End Example.

(** * Properties of the preference losses *)

Module RlhfFacts.
Import Torch Rlhf RlhfSpec.
Local Open Scope R_scope.


Lemma sub_same_length a b :
  length (data a) = length (data b) ->
  sub a b = Ok (mkTensor (zip_with Rminus (data a) (data b))
                         (requires_grad a || requires_grad b)).
Proof.
  intros H. unfold sub, broadcast2. rewrite H, Nat.eqb_refl. reflexivity.
Qed.



(** What [DPOLoss.forward] returns on inputs of one batch shape. *)
Lemma dpo_forward_same_shape (self : DPOLoss.t) p r n :
  batch_shape n p -> batch_shape n r ->
  let logits :=
    zip_with Rminus
      (zip_with Rminus (data (chosen_logps p)) (data (rejected_logps p)))
      (zip_with Rminus (data (chosen_logps r)) (data (rejected_logps r))) in
  let g := requires_grad (chosen_logps p) || requires_grad (rejected_logps p)
           || (requires_grad (chosen_logps r) || requires_grad (rejected_logps r)) in
  DPOLoss.forward self p r =
  Ok (mkTensor
        (zip_with Rminus
           ((fun x => x * (1 - DPOLoss.label_smoothing self)) <$>
              (Ropp <$> (logsigmoid_R <$> ((fun x => DPOLoss.beta self * x) <$> logits))))
           ((fun x => x * DPOLoss.label_smoothing self) <$>
              (logsigmoid_R <$> ((fun x => - DPOLoss.beta self * x) <$> logits))))
        (g || g),
      mkTensor ((fun x => DPOLoss.beta self * x) <$>
                  zip_with Rminus (data (chosen_logps p)) (data (chosen_logps r))) false,
      mkTensor ((fun x => DPOLoss.beta self * x) <$>
                  zip_with Rminus (data (rejected_logps p)) (data (rejected_logps r))) false).
Proof.
  intros [Hpc Hpr] [Hrc Hrr]. cbv zeta. unfold DPOLoss.forward.
  rewrite (sub_same_length (chosen_logps p) (rejected_logps p)) by congruence.
  rewrite (sub_same_length (chosen_logps r) (rejected_logps r)) by congruence.
  cbn [obind]. rewrite sub_same_length
    by (cbn [data]; rewrite !length_zip_with; lia).
  cbn [obind data requires_grad]. rewrite sub_same_length
    by (cbn; rewrite !length_fmap, !length_zip_with; lia).
  cbn [obind].
  rewrite (sub_same_length (chosen_logps p) (chosen_logps r)) by congruence.
  rewrite (sub_same_length (rejected_logps p) (rejected_logps r)) by congruence.
  reflexivity.
Qed.

(** What [RSOLoss.forward] returns on inputs of one batch shape. *)
Lemma rso_forward_same_shape (self : RSOLoss.t) p r n :
  batch_shape n p -> batch_shape n r ->
  let logits :=
    zip_with Rminus
      (zip_with Rminus (data (chosen_logps p)) (data (rejected_logps p)))
      (zip_with Rminus (data (chosen_logps r)) (data (rejected_logps r))) in
  let g := requires_grad (chosen_logps p) || requires_grad (rejected_logps p)
           || (requires_grad (chosen_logps r) || requires_grad (rejected_logps r)) in
  RSOLoss.forward self p r =
  Ok (mkTensor
        (relu_R <$> ((fun x => 1 - x) <$> ((fun x => RSOLoss.gamma self * x) <$> logits))) g,
      mkTensor ((fun x => RSOLoss.gamma self * x) <$>
                  zip_with Rminus (data (chosen_logps p)) (data (chosen_logps r))) false,
      mkTensor ((fun x => RSOLoss.gamma self * x) <$>
                  zip_with Rminus (data (rejected_logps p)) (data (rejected_logps r))) false).
Proof.
  intros [Hpc Hpr] [Hrc Hrr]. cbv zeta. unfold RSOLoss.forward.
  rewrite (sub_same_length (chosen_logps p) (rejected_logps p)) by congruence.
  rewrite (sub_same_length (chosen_logps r) (rejected_logps r)) by congruence.
  cbn [obind]. rewrite sub_same_length
    by (cbn [data]; rewrite !length_zip_with; lia).
  cbn [obind data requires_grad].
  rewrite (sub_same_length (chosen_logps p) (chosen_logps r)) by congruence.
  rewrite (sub_same_length (rejected_logps p) (rejected_logps r)) by congruence.
  reflexivity.
Qed.

(** The entry of the logits at an index where all four inputs are defined. *)
Lemma logits_lookup (p r : ChosenRejectedOutputs) i pc pr rc rr :
  data (chosen_logps p) !! i = Some pc ->
  data (rejected_logps p) !! i = Some pr ->
  data (chosen_logps r) !! i = Some rc ->
  data (rejected_logps r) !! i = Some rr ->
  zip_with Rminus
    (zip_with Rminus (data (chosen_logps p)) (data (rejected_logps p)))
    (zip_with Rminus (data (chosen_logps r)) (data (rejected_logps r))) !! i
  = Some (spec_logits pc pr rc rr).
Proof.
  intros H1 H2 H3 H4. rewrite !lookup_zip_with, H1, H2, H3, H4. reflexivity.
Qed.

(** ** Bounds on [exp] by repeated squaring *)

Lemma IZR_div_le a b : (0 < b)%Z -> IZR (a / b) <= IZR a / IZR b.
Proof.
  intros Hb. assert (0 < IZR b) by (apply IZR_lt; exact Hb).
  apply Rmult_le_reg_r with (IZR b); [assumption|].
  unfold Rdiv. rewrite Rmult_assoc, Rinv_l, Rmult_1_r by lra.
  rewrite <- mult_IZR. apply IZR_le. rewrite Z.mul_comm.
  apply Z.mul_div_le. exact Hb.
Qed.

Lemma sq_down_nonneg k a : (0 <= a)%Z -> (0 <= sq_down k a)%Z.
Proof.
  intros Ha. induction k as [|k IH]; cbn; [exact Ha|].
  apply Z.div_pos; [nia | reflexivity].
Qed.

Lemma sq_down_exp k : forall a t,
  (0 <= a)%Z -> IZR a / IZR scale <= exp t ->
  IZR (sq_down k a) / IZR scale <= exp (2 ^ k * t).
Proof.
  induction k as [|k IH]; intros a t Ha Hle.
  - cbn. rewrite Rmult_1_l. exact Hle.
  - change (sq_down (S k) a) with ((sq_down k a * sq_down k a / scale)%Z).
    specialize (IH a t Ha Hle).
    pose proof (sq_down_nonneg k a Ha) as Hn. apply IZR_le in Hn.
    set (b := sq_down k a) in *.
    assert (HS : 0 < IZR scale) by (apply IZR_lt; reflexivity).
    replace (2 ^ S k * t) with (2 ^ k * t + 2 ^ k * t) by (cbn; ring).
    rewrite exp_plus.
    apply Rle_trans with (IZR b / IZR scale * (IZR b / IZR scale)).
    + apply Rmult_le_reg_r with (IZR scale); [assumption|].
      pose proof (IZR_div_le (b * b) scale eq_refl) as Hd.
      rewrite mult_IZR in Hd. unfold Rdiv in *.
      replace (IZR b * / IZR scale * (IZR b * / IZR scale) * IZR scale)
        with (IZR b * IZR b * / IZR scale) by (field; lra).
      replace (IZR (b * b / scale) * / IZR scale * IZR scale)
        with (IZR (b * b / scale)) by (field; lra).
      exact Hd.
    + assert (0 <= IZR b / IZR scale).
      { apply Rmult_le_pos; [exact Hn|]. left. apply Rinv_0_lt_compat. exact HS. }
      apply Rmult_le_compat; assumption.
Qed.

Lemma exp_lb_sound k num den :
  (0 < den)%Z ->
  (0 <= scale + num * scale / (den * 2 ^ Z.of_nat k))%Z ->
  IZR (exp_lb k num den) / IZR scale <= exp (IZR num / IZR den).
Proof.
  intros Hden Hnn. unfold exp_lb.
  assert (Hp : (0 < 2 ^ Z.of_nat k)%Z) by (apply Z.pow_pos_nonneg; lia).
  assert (HS : 0 < IZR scale) by (apply IZR_lt; reflexivity).
  assert (Hd : 0 < IZR den) by (apply IZR_lt; exact Hden).
  assert (H2 : 0 < 2 ^ k) by (apply pow_lt; lra).
  replace (IZR num / IZR den) with (2 ^ k * (IZR num / (IZR den * 2 ^ k)))
    by (field; lra).
  apply sq_down_exp; [exact Hnn|].
  eapply Rle_trans; [|apply exp_ineq1_le].
  rewrite plus_IZR.
  pose proof (IZR_div_le (num * scale) (den * 2 ^ Z.of_nat k) ltac:(lia)) as Hq.
  rewrite !mult_IZR in Hq.
  replace (IZR (2 ^ Z.of_nat k)) with (2 ^ k) in Hq.
  2:{ rewrite <- pow_IZR. reflexivity. }
  apply Rmult_le_reg_r with (IZR scale); [assumption|].
  unfold Rdiv in *.
  replace ((IZR scale + IZR (num * scale / (den * 2 ^ Z.of_nat k))) * / IZR scale * IZR scale)
    with (IZR scale + IZR (num * scale / (den * 2 ^ Z.of_nat k))) by (field; lra).
  replace ((1 + IZR num * / (IZR den * 2 ^ k)) * IZR scale)
    with (IZR scale + IZR num * IZR scale * / (IZR den * 2 ^ k)) by (field; lra).
  lra.
Qed.

Ltac exp_bound k num den H :=
  pose proof (exp_lb_sound k num den eq_refl ltac:(vm_compute; discriminate)) as H;
  let v := eval vm_compute in (exp_lb k num den) in
  change (exp_lb k num den) with v in H;
  let s := eval vm_compute in scale in
  change scale with s in H.

(** [-log σ(0.1)] to four decimals. *)
Lemma neg_logsigmoid_tenth :
  64435 / 100000 < - ln (sigmoid (1 / 10)) < 64445 / 100000.
Proof.
  unfold sigmoid.
  assert (He : 0 < exp (- (1 / 10))) by apply exp_pos.
  rewrite ln_Rinv, Ropp_involutive by lra.
  exp_bound 15%nat 1%Z 10%Z H1.
  exp_bound 15%nat 64445%Z 100000%Z H2.
  exp_bound 15%nat (-1)%Z 10%Z H3.
  exp_bound 15%nat (-64435)%Z 100000%Z H4.
  split.
  - apply exp_lt_inv. rewrite exp_ln by lra.
    replace (64435 / 100000) with (- (-64435 / 100000)) by lra.
    rewrite exp_Ropp.
    replace (- (1 / 10)) with (-1 / 10) by lra.
    apply Rle_lt_trans with (/ (525000357555448444 / 1000000000000000000)).
    + apply Rinv_le_contravar; [lra | exact H4].
    + eapply Rlt_le_trans; [|apply Rplus_le_compat_l; exact H3]. lra.
  - apply exp_lt_inv. rewrite exp_ln by lra.
    eapply Rlt_le_trans; [|exact H2].
    rewrite exp_Ropp.
    apply Rle_lt_trans with (1 + / (1105170749440281150 / 1000000000000000000)).
    + apply Rplus_le_compat_l. apply Rinv_le_contravar; [lra | exact H1].
    + lra.
Qed.

Lemma example_shapes : batch_shape 1 example_policy /\ batch_shape 1 example_reference.
Proof. repeat split. Qed.

Lemma relu_example : relu_R (1 - 1 / 10 * (2 - 1 - (1 - 1))) = 9 / 10.
Proof.
  unfold relu_R, Rmax. destruct (Rle_dec 0 (1 - 1 / 10 * (2 - 1 - (1 - 1)))); lra.
Qed.

(** The losses of [DPOLoss.forward] always subtract two tensors of one
    length, so that step cannot raise. *)
Lemma dpo_losses_sub_ok (beta ls : R) (logits : Tensor) :
  exists losses,
    sub (mul_scalar (neg (logsigmoid (scalar_mul beta logits))) (1 - ls))
        (mul_scalar (logsigmoid (scalar_mul (- beta) logits)) ls) = Ok losses.
Proof.
  eexists. apply sub_same_length. cbn. rewrite !length_fmap. reflexivity.
Qed.

(** The rewards computed by both losses, as a function of the temperature. *)
Lemma dpo_rewards_eq (self : DPOLoss.t) p r :
  rewards (DPOLoss.forward self p r) =
  rewards (RSOLoss.forward (RSOLoss.__init__ (DPOLoss.beta self)) p r).
Proof.
  unfold DPOLoss.forward, RSOLoss.forward, rewards, omap.
  destruct (sub (chosen_logps p) (rejected_logps p)) as [a|e]; [|reflexivity].
  destruct (sub (chosen_logps r) (rejected_logps r)) as [b|e]; [|reflexivity].
  cbn [obind]. destruct (sub a b) as [logits|e]; [|reflexivity].
  cbn [obind].
  destruct (dpo_losses_sub_ok (DPOLoss.beta self) (DPOLoss.label_smoothing self) logits)
    as [losses ->].
  cbn [obind].
  destruct (sub (chosen_logps p) (chosen_logps r)) as [c|e]; [|reflexivity].
  cbn [obind].
  destruct (sub (rejected_logps p) (rejected_logps r)) as [d|e]; reflexivity.
Qed.

(** C5: for policy and reference inputs of one batch shape, every entry of
    the DPO loss is [-log σ(beta·logits)·(1 - label_smoothing)
    - log σ(-beta·logits)·label_smoothing] with
    [logits = (policy.chosen - policy.rejected) - (reference.chosen -
    reference.rejected)]; on the worked example (chosen 2, rejected 1,
    reference 1 and 1, beta 0.1, no smoothing) the logits are 1 and the loss
    is 0.6444 to four decimals. *)
Theorem dpo_loss_formula :
  (forall (self : DPOLoss.t) p r n,
     batch_shape n p -> batch_shape n r ->
     exists losses chosen_rewards rejected_rewards,
       DPOLoss.forward self p r = Ok (losses, chosen_rewards, rejected_rewards) /\
       length (data losses) = n /\
       forall i pc pr rc rr,
         data (chosen_logps p) !! i = Some pc ->
         data (rejected_logps p) !! i = Some pr ->
         data (chosen_logps r) !! i = Some rc ->
         data (rejected_logps r) !! i = Some rr ->
         data losses !! i =
           Some (spec_dpo_loss (DPOLoss.beta self) (DPOLoss.label_smoothing self)
                   (spec_logits pc pr rc rr))) /\
  (exists loss,
     omap (fun out => data (fst (fst out)))
       (DPOLoss.forward (DPOLoss.__init__ (1 / 10) 0) example_policy example_reference)
     = Ok [loss] /\
     loss = spec_dpo_loss (1 / 10) 0 (spec_logits 2 1 1 1) /\
     spec_logits 2 1 1 1 = 1 /\
     64435 / 100000 < loss < 64445 / 100000).
Proof.
  split.
  - intros self p r n Hp Hr.
    pose proof (dpo_forward_same_shape self p r n Hp Hr) as Hf. cbv zeta in Hf.
    do 3 eexists. split; [exact Hf|]. cbn [data].
    destruct Hp as [Hpc Hpr], Hr as [Hrc Hrr]. split.
    + rewrite length_zip_with, !length_fmap, !length_zip_with. lia.
    + intros i pc pr rc rr H1 H2 H3 H4.
      rewrite lookup_zip_with, !list_lookup_fmap.
      rewrite (logits_lookup p r i pc pr rc rr H1 H2 H3 H4). cbn.
      unfold spec_dpo_loss, logsigmoid_R. do 2 f_equal.
      replace (- DPOLoss.beta self * spec_logits pc pr rc rr)
        with (- (DPOLoss.beta self * spec_logits pc pr rc rr)) by ring.
      reflexivity.
  - exists (spec_dpo_loss (1 / 10) 0 (spec_logits 2 1 1 1)).
    assert (Hl : spec_logits 2 1 1 1 = 1) by (unfold spec_logits; lra).
    split; [|split; [reflexivity|split; [exact Hl|]]].
    + destruct example_shapes as [Hp Hr].
      rewrite (dpo_forward_same_shape _ _ _ 1%nat Hp Hr). cbn.
      unfold spec_dpo_loss, logsigmoid_R, spec_logits. do 2 f_equal.
      replace (- (1 / 10) * (2 - 1 - (1 - 1))) with (- (1 / 10 * (2 - 1 - (1 - 1)))) by ring.
      reflexivity.
    + rewrite Hl. unfold spec_dpo_loss.
      replace (1 / 10 * 1) with (1 / 10) by lra.
      pose proof neg_logsigmoid_tenth. lra.
Qed.

Lemma dpo_loss_formula_witness :
  batch_shape 1 example_policy /\ batch_shape 1 example_reference /\
  exists losses chosen_rewards rejected_rewards,
    DPOLoss.forward (DPOLoss.__init__ (1 / 10) 0) example_policy example_reference
      = Ok (losses, chosen_rewards, rejected_rewards) /\
    length (data losses) = 1%nat /\
    forall i pc pr rc rr,
      data (chosen_logps example_policy) !! i = Some pc ->
      data (rejected_logps example_policy) !! i = Some pr ->
      data (chosen_logps example_reference) !! i = Some rc ->
      data (rejected_logps example_reference) !! i = Some rr ->
      data losses !! i = Some (spec_dpo_loss (1 / 10) 0 (spec_logits pc pr rc rr)).
Proof.
  split; [|split].
  - split; reflexivity.
  - split; reflexivity.
  - apply (proj1 dpo_loss_formula (DPOLoss.__init__ (1 / 10) 0)
             example_policy example_reference 1%nat); split; reflexivity.
Defined.

(** C6: for inputs of one batch shape, every entry of the DPO chosen reward
    is [beta·(policy.chosen - reference.chosen)], every entry of the rejected
    reward is [beta·(policy.rejected - reference.rejected)], and both reward
    tensors are detached: they do not require gradient, whatever the inputs
    do. *)
Theorem dpo_rewards_detached (self : DPOLoss.t) p r n :
  batch_shape n p -> batch_shape n r ->
  exists losses chosen_rewards rejected_rewards,
    DPOLoss.forward self p r = Ok (losses, chosen_rewards, rejected_rewards) /\
    length (data chosen_rewards) = n /\
    length (data rejected_rewards) = n /\
    (forall i pc rc,
       data (chosen_logps p) !! i = Some pc ->
       data (chosen_logps r) !! i = Some rc ->
       data chosen_rewards !! i = Some (spec_reward (DPOLoss.beta self) pc rc)) /\
    (forall i pr rr,
       data (rejected_logps p) !! i = Some pr ->
       data (rejected_logps r) !! i = Some rr ->
       data rejected_rewards !! i = Some (spec_reward (DPOLoss.beta self) pr rr)) /\
    requires_grad chosen_rewards = false /\
    requires_grad rejected_rewards = false.
Proof.
  intros Hp Hr.
  pose proof (dpo_forward_same_shape self p r n Hp Hr) as Hf. cbv zeta in Hf.
  do 3 eexists. split; [exact Hf|]. cbn [data requires_grad].
  destruct Hp as [Hpc Hpr], Hr as [Hrc Hrr].
  repeat split.
  - rewrite length_fmap, length_zip_with. lia.
  - rewrite length_fmap, length_zip_with. lia.
  - intros i pc rc H1 H2.
    rewrite list_lookup_fmap, lookup_zip_with, H1, H2. reflexivity.
  - intros i pr rr H1 H2.
    rewrite list_lookup_fmap, lookup_zip_with, H1, H2. reflexivity.
Qed.

Lemma dpo_rewards_detached_witness :
  requires_grad (chosen_logps example_policy) = true /\
  exists losses chosen_rewards rejected_rewards,
    DPOLoss.forward (DPOLoss.__init__ (1 / 10) 0) example_policy example_reference
      = Ok (losses, chosen_rewards, rejected_rewards) /\
    length (data chosen_rewards) = 1%nat /\
    length (data rejected_rewards) = 1%nat /\
    (forall i pc rc,
       data (chosen_logps example_policy) !! i = Some pc ->
       data (chosen_logps example_reference) !! i = Some rc ->
       data chosen_rewards !! i = Some (spec_reward (1 / 10) pc rc)) /\
    (forall i pr rr,
       data (rejected_logps example_policy) !! i = Some pr ->
       data (rejected_logps example_reference) !! i = Some rr ->
       data rejected_rewards !! i = Some (spec_reward (1 / 10) pr rr)) /\
    requires_grad chosen_rewards = false /\
    requires_grad rejected_rewards = false.
Proof.
  split; [reflexivity|].
  apply (dpo_rewards_detached (DPOLoss.__init__ (1 / 10) 0)
           example_policy example_reference 1%nat); split; reflexivity.
Defined.

(** C7: for inputs of one batch shape, every entry of the hinge (RSO) loss
    is [max(0, 1 - gamma·logits)] with the logits of the DPO variant, its
    rewards are the DPO rewards with [gamma] in the place of [beta], and on
    the worked example with [gamma = 0.1] the loss is 0.9. *)
Theorem rso_loss_formula :
  (forall (self : RSOLoss.t) p r n,
     batch_shape n p -> batch_shape n r ->
     exists losses chosen_rewards rejected_rewards,
       RSOLoss.forward self p r = Ok (losses, chosen_rewards, rejected_rewards) /\
       length (data losses) = n /\
       (forall i pc pr rc rr,
          data (chosen_logps p) !! i = Some pc ->
          data (rejected_logps p) !! i = Some pr ->
          data (chosen_logps r) !! i = Some rc ->
          data (rejected_logps r) !! i = Some rr ->
          data losses !! i =
            Some (spec_hinge_loss (RSOLoss.gamma self) (spec_logits pc pr rc rr)) /\
          data chosen_rewards !! i = Some (spec_reward (RSOLoss.gamma self) pc rc) /\
          data rejected_rewards !! i = Some (spec_reward (RSOLoss.gamma self) pr rr)) /\
       rewards (RSOLoss.forward self p r) =
       rewards (DPOLoss.forward (DPOLoss.__init__ (RSOLoss.gamma self) 0) p r)) /\
  omap (fun out => data (fst (fst out)))
    (RSOLoss.forward (RSOLoss.__init__ (1 / 10)) example_policy example_reference)
  = Ok [9 / 10].
Proof.
  split.
  - intros self p r n Hp Hr.
    pose proof (rso_forward_same_shape self p r n Hp Hr) as Hf. cbv zeta in Hf.
    do 3 eexists. split; [exact Hf|]. cbn [data].
    split; [|split].
    + destruct Hp as [Hpc Hpr], Hr as [Hrc Hrr].
      rewrite !length_fmap, !length_zip_with. lia.
    + intros i pc pr rc rr H1 H2 H3 H4. split; [|split].
      * rewrite !list_lookup_fmap.
        rewrite (logits_lookup p r i pc pr rc rr H1 H2 H3 H4). reflexivity.
      * rewrite list_lookup_fmap, lookup_zip_with, H1, H3. reflexivity.
      * rewrite list_lookup_fmap, lookup_zip_with, H2, H4. reflexivity.
    + rewrite (dpo_rewards_eq (DPOLoss.__init__ (RSOLoss.gamma self) 0) p r).
      destruct self. reflexivity.
  - destruct example_shapes as [Hp Hr].
    rewrite (rso_forward_same_shape _ _ _ 1%nat Hp Hr). cbn.
    rewrite relu_example. reflexivity.
Qed.

Lemma rso_loss_formula_witness :
  exists losses chosen_rewards rejected_rewards,
    RSOLoss.forward (RSOLoss.__init__ (1 / 10)) example_policy example_reference
      = Ok (losses, chosen_rewards, rejected_rewards) /\
    length (data losses) = 1%nat /\
    (forall i pc pr rc rr,
       data (chosen_logps example_policy) !! i = Some pc ->
       data (rejected_logps example_policy) !! i = Some pr ->
       data (chosen_logps example_reference) !! i = Some rc ->
       data (rejected_logps example_reference) !! i = Some rr ->
       data losses !! i = Some (spec_hinge_loss (1 / 10) (spec_logits pc pr rc rr)) /\
       data chosen_rewards !! i = Some (spec_reward (1 / 10) pc rc) /\
       data rejected_rewards !! i = Some (spec_reward (1 / 10) pr rr)) /\
    rewards (RSOLoss.forward (RSOLoss.__init__ (1 / 10)) example_policy example_reference) =
    rewards (DPOLoss.forward (DPOLoss.__init__ (1 / 10) 0) example_policy example_reference).
Proof.
  apply (proj1 rso_loss_formula (RSOLoss.__init__ (1 / 10))
           example_policy example_reference 1%nat); split; reflexivity.
Defined.

(** C10: the chosen and rejected rewards of [DPOLoss] do not depend on
    [label_smoothing], and [DPOLoss] built with [beta] equal to the [gamma]
    of [RSOLoss] returns the same two rewards as [RSOLoss] on every input;
    on inputs of one batch shape both calls do return. *)
Theorem rewards_independent_of_smoothing :
  (forall beta ls1 ls2 p r,
     rewards (DPOLoss.forward (DPOLoss.__init__ beta ls1) p r) =
     rewards (DPOLoss.forward (DPOLoss.__init__ beta ls2) p r)) /\
  (forall beta ls gamma p r,
     beta = gamma ->
     rewards (DPOLoss.forward (DPOLoss.__init__ beta ls) p r) =
     rewards (RSOLoss.forward (RSOLoss.__init__ gamma) p r)) /\
  (forall beta ls p r n,
     batch_shape n p -> batch_shape n r ->
     exists chosen_rewards rejected_rewards,
       rewards (DPOLoss.forward (DPOLoss.__init__ beta ls) p r)
         = Ok (chosen_rewards, rejected_rewards) /\
       rewards (RSOLoss.forward (RSOLoss.__init__ beta) p r)
         = Ok (chosen_rewards, rejected_rewards)).
Proof.
  split; [|split].
  - intros beta ls1 ls2 p r. rewrite !dpo_rewards_eq. reflexivity.
  - intros beta ls gamma p r <-. rewrite dpo_rewards_eq. reflexivity.
  - intros beta ls p r n Hp Hr.
    rewrite (dpo_forward_same_shape _ p r n Hp Hr).
    rewrite (rso_forward_same_shape _ p r n Hp Hr).
    do 2 eexists. split; reflexivity.
Qed.

Lemma rewards_independent_of_smoothing_witness :
  rewards (DPOLoss.forward (DPOLoss.__init__ (1 / 10) (1 / 4)) example_policy example_reference) =
  rewards (RSOLoss.forward (RSOLoss.__init__ (1 / 10)) example_policy example_reference) /\
  exists chosen_rewards rejected_rewards,
    rewards (DPOLoss.forward (DPOLoss.__init__ (1 / 10) (1 / 4)) example_policy example_reference)
      = Ok (chosen_rewards, rejected_rewards) /\
    rewards (RSOLoss.forward (RSOLoss.__init__ (1 / 10)) example_policy example_reference)
      = Ok (chosen_rewards, rejected_rewards).
Proof.
  split.
  - apply (proj1 (proj2 rewards_independent_of_smoothing)). reflexivity.
  - apply (proj2 (proj2 rewards_independent_of_smoothing) (1 / 10) (1 / 4)
             example_policy example_reference 1%nat); split; reflexivity.
Defined.

End RlhfFacts.

(** * Properties of the vision transform *)

Section TransformFacts.
Context {P : Payload} {E : External}.
Local Open Scope py_scope.

(** ** Inversion of the store monad *)

Lemma bind_ok {A B} (m : M A) (k : A -> M B) h b h' :
  bind m k h = (Ok b, h') ->
  exists a h1, m h = (Ok a, h1) /\ k a h1 = (Ok b, h').
Proof.
  unfold bind. destruct (m h) as [[a|e] h1]; [eauto | discriminate].
Qed.

Lemma bind_raise {A B} (m : M A) (k : A -> M B) h e h' :
  bind m k h = (Raise e, h') ->
  m h = (Raise e, h') \/ exists a h1, m h = (Ok a, h1) /\ k a h1 = (Raise e, h').
Proof.
  unfold bind. destruct (m h) as [[a|e1] h1]; [eauto | intros [= -> ->]; auto].
Qed.



Lemma getitem_ok d key v h h' :
  getitem d key h = (Ok v, h') ->
  h' = h /\ exists m, h !! d = Some (OSample m) /\ m !! key = Some v.
Proof.
  unfold getitem. destruct (h !! d) as [[m| | | | | |]|]; try discriminate.
  destruct (m !! key) as [v'|] eqn:Hk; [|discriminate].
  intros [= -> ->]. eauto.
Qed.

Lemma pop_ok d key v h h' :
  pop d key h = (Ok v, h') ->
  exists m, h !! d = Some (OSample m) /\ m !! key = Some v /\
            h' = <[d := OSample (delete key m)]> h.
Proof.
  unfold pop. destruct (h !! d) as [[m| | | | | |]|]; try discriminate.
  destruct (m !! key) as [v'|] eqn:Hk; [|discriminate].
  intros [= -> <-]. eauto.
Qed.

Lemma pop_raise d key e h h' :
  pop d key h = (Raise e, h') -> h' = h.
Proof.
  unfold pop. destruct (h !! d) as [[m| | | | | |]|]; try (intros [= _ <-]; reflexivity).
  destruct (m !! key); [discriminate | intros [= _ <-]; reflexivity].
Qed.

Lemma setitem_ok d key v h h' :
  setitem d key v h = (Ok tt, h') ->
  exists m, h !! d = Some (OSample m) /\ h' = <[d := OSample (<[key := v]> m)]> h.
Proof.
  unfold setitem. destruct (h !! d) as [[m| | | | | |]|]; try discriminate.
  intros [= <-]. eauto.
Qed.

Lemma setitem_sample d key v h m :
  h !! d = Some (OSample m) ->
  setitem d key v h = (Ok tt, <[d := OSample (<[key := v]> m)]> h).
Proof. unfold setitem. intros ->. reflexivity. Qed.

Lemma as_messages_ok v ms h h' :
  as_messages v h = (Ok ms, h') -> h' = h /\ v = VMessages ms.
Proof. destruct v; cbn; try discriminate. intros [= -> ->]. auto. Qed.

Lemma as_tokens_ok v ts h h' :
  as_tokens v h = (Ok ts, h') -> h' = h /\ v = VTokens ts.
Proof. destruct v; cbn; try discriminate. intros [= -> ->]. auto. Qed.

Lemma as_encoder_input_ok v e h h' :
  as_encoder_input v h = (Ok e, h') -> h' = h /\ v = VEncoderInput e.
Proof. destruct v; cbn; try discriminate. intros [= -> ->]. auto. Qed.

Lemma transform_attr_ok {A} l (f : Llama3VisionTransform -> A) a h h' :
  transform_attr l f h = (Ok a, h') ->
  h' = h /\ exists s, h !! l = Some (OTransform s) /\ a = f s.
Proof.
  unfold transform_attr. destruct (h !! l) as [[| | | | | |s]|]; try discriminate.
  intros [= <- <-]. eauto.
Qed.

Lemma tokenizer_attr_ok {A} l (f : Llama3Tokenizer.t -> A) a h h' :
  tokenizer_attr l f h = (Ok a, h') ->
  h' = h /\ exists t, h !! l = Some (OTokenizer t) /\ a = f t.
Proof.
  unfold tokenizer_attr. destruct (h !! l) as [[| | |t| | |]|]; try discriminate.
  intros [= <- <-]. eauto.
Qed.

Lemma image_transform_attr_ok {A} l (f : CLIPImageTransform.t -> A) a h h' :
  image_transform_attr l f h = (Ok a, h') ->
  h' = h /\ exists c, h !! l = Some (OImageTransform c) /\ a = f c.
Proof.
  unfold image_transform_attr. destruct (h !! l) as [[| | | |c| |]|]; try discriminate.
  intros [= <- <-]. eauto.
Qed.

Lemma xattn_attr_ok {A} l (f : VisionCrossAttentionMask.t -> A) a h h' :
  xattn_attr l f h = (Ok a, h') ->
  h' = h /\ exists x, h !! l = Some (OCrossAttentionMask x) /\ a = f x.
Proof.
  unfold xattn_attr. destruct (h !! l) as [[| | | | |x|]|]; try discriminate.
  intros [= <- <-]. eauto.
Qed.

Lemma read_ok {A} (f : heap -> outcome A) a h h' :
  read f h = (Ok a, h') -> h' = h /\ f h = Ok a.
Proof. unfold read. intros [= -> ->]. auto. Qed.

(** ** The image loop *)

Lemma append_image_ok self inference acc image acc' h h' :
  append_image self inference acc image h = (Ok acc', h') ->
  h' = h /\
  exists out, transformed_by self inference h image out /\
    acc' = {| images := images acc ++ [out_image out];
              aspect_ratio := aspect_ratio acc ++ [out_aspect_ratio out] |}.
Proof.
  unfold append_image, CLIPImageTransform_call. intros H.
  apply bind_ok in H as (ti & h1 & H1 & H).
  apply transform_attr_ok in H1 as (-> & s & Hs & ->).
  apply bind_ok in H as (out & h2 & H2 & H).
  apply bind_ok in H2 as (c & h3 & H3 & H2).
  apply image_transform_attr_ok in H3 as (-> & c' & Hc & ->).
  apply read_ok in H2 as (-> & Hout).
  injection H as <- <-. split; [reflexivity|].
  exists out. split; [|reflexivity]. exists s, c'. auto.
Qed.

Lemma inner_loop_ok self inference imgs : forall acc acc' h h',
  for_each imgs (append_image self inference) acc h = (Ok acc', h') ->
  h' = h /\
  exists outs,
    Forall2 (transformed_by self inference h) imgs outs /\
    images acc' = images acc ++ (out_image <$> outs) /\
    aspect_ratio acc' = aspect_ratio acc ++ (out_aspect_ratio <$> outs).
Proof.
  induction imgs as [|image imgs IH]; intros acc acc' h h' H; cbn in H.
  - injection H as <- <-. split; [reflexivity|].
    exists []. cbn. rewrite !app_nil_r. auto.
  - apply bind_ok in H as (acc1 & h1 & H1 & H).
    apply append_image_ok in H1 as (-> & out & Hout & ->).
    apply IH in H as (-> & outs & Houts & Hi & Ha). split; [reflexivity|].
    exists (out :: outs). cbn in *.
    rewrite Hi, Ha, <- !app_assoc. auto.
Qed.

Lemma outer_loop_ok self inference ms : forall acc acc' h h',
  for_each ms (fun encoder_input message =>
    for_each (get_media message) (append_image self inference) encoder_input)
    acc h = (Ok acc', h') ->
  h' = h /\
  exists outs,
    Forall2 (transformed_by self inference h) (all_media ms) outs /\
    images acc' = images acc ++ (out_image <$> outs) /\
    aspect_ratio acc' = aspect_ratio acc ++ (out_aspect_ratio <$> outs).
Proof.
  induction ms as [|m ms IH]; intros acc acc' h h' H; cbn in H.
  - injection H as <- <-. split; [reflexivity|].
    exists []. cbn. rewrite !app_nil_r. auto.
  - apply bind_ok in H as (acc1 & h1 & H1 & H).
    apply inner_loop_ok in H1 as (-> & outs1 & Houts1 & Hi1 & Ha1).
    apply IH in H as (-> & outs2 & Houts2 & Hi2 & Ha2). split; [reflexivity|].
    exists (outs1 ++ outs2). split; [|split].
    + unfold all_media. cbn. apply Forall2_app; assumption.
    + rewrite Hi2, Hi1, fmap_app, app_assoc. reflexivity.
    + rewrite Ha2, Ha1, fmap_app, app_assoc. reflexivity.
Qed.

(** What the image stage does when it completes. *)
Lemma image_stage_ok self sample inference h h1 :
  image_stage self sample inference h = (Ok tt, h1) ->
  exists d ms outs,
    h !! sample = Some (OSample d) /\
    d !! "messages" = Some (VMessages ms) /\
    Forall2 (transformed_by self inference h) (all_media ms) outs /\
    h1 = <[sample := OSample
             (<["encoder_input" :=
                  VEncoderInput {| images := out_image <$> outs;
                                   aspect_ratio := out_aspect_ratio <$> outs |}]> d)]> h.
Proof.
  unfold image_stage. cbv zeta. intros H.
  apply bind_ok in H as (v & h' & Hg & H).
  apply getitem_ok in Hg as (-> & d & Hd & Hk).
  apply bind_ok in H as (ms & h' & Hm & H).
  apply as_messages_ok in Hm as (-> & ->).
  apply bind_ok in H as (e & h' & Hl & H).
  apply outer_loop_ok in Hl as (-> & outs & Houts & Hi & Ha).
  cbn in Hi, Ha.
  apply setitem_ok in H as (d' & Hd' & ->).
  rewrite Hd in Hd'. injection Hd' as <-.
  exists d, ms, outs. repeat split; try assumption.
  destruct e as [im ar]. cbn in Hi, Ha. subst. reflexivity.
Qed.

Lemma length_all_media (ms : list Message) :
  length (all_media ms) = sum_list ((fun m => length (get_media m)) <$> ms).
Proof.
  unfold all_media. induction ms as [|m ms IH]; cbn; [reflexivity|].
  rewrite length_app, IH. reflexivity.
Qed.

(** ** The three stages of [__call__] *)

Lemma call_stages self sample inference h :
  __call__ self sample inference h =
  bind (image_stage self sample inference) (fun _ =>
    bind (tokenizer_stage self sample inference) (fun sample' =>
      mask_stage self sample' inference)) h.
Proof.
  unfold __call__, image_stage, tokenizer_stage, mask_stage. cbv zeta.
  unfold bind, ret.
  repeat match goal with
         | |- context [match ?m ?x with _ => _ end] =>
             lazymatch m with
             | bind _ _ => fail
             | _ => destruct (m x) as [[?|?] ?]
             end
         end; try reflexivity.
Qed.

Lemma tokenizer_stage_ok self sample inference h1 r h2 :
  tokenizer_stage self sample inference h1 = (Ok r, h2) ->
  r = sample /\
  exists s t d1 ms tokens mask,
    h1 !! self = Some (OTransform s) /\
    h1 !! tokenizer s = Some (OTokenizer t) /\
    h1 !! sample = Some (OSample d1) /\
    d1 !! "messages" = Some (VMessages ms) /\
    tokenizer_sample t ms inference
      (<[sample := OSample (delete "messages" d1)]> h1) = Ok (tokens, mask) /\
    h2 = <[sample := OSample (<["mask" := VMask mask]>
                                (<["tokens" := VTokens tokens]>
                                   (delete "messages" d1)))]> h1.
Proof.
  unfold tokenizer_stage, Llama3Tokenizer_call. intros H.
  apply bind_ok in H as (tk & h' & Ha & H).
  apply transform_attr_ok in Ha as (-> & s & Hs & ->).
  apply bind_ok in H as (t & h' & Ht & H).
  apply tokenizer_attr_ok in Ht as (-> & t' & Ht & ->).
  apply bind_ok in H as (v & h' & Hg & H).
  apply pop_ok in Hg as (d1 & Hd & Hk & ->).
  apply bind_ok in H as (ms & h' & Hm & H).
  apply as_messages_ok in Hm as (-> & ->).
  apply bind_ok in H as ([tokens mask] & h' & Hr & H).
  apply read_ok in Hr as (-> & Hr).
  apply bind_ok in H as ([] & h' & Hs1 & H).
  apply setitem_ok in Hs1 as (d' & Hd' & ->).
  rewrite lookup_insert_eq in Hd'. injection Hd' as <-.
  apply bind_ok in H as ([] & h' & Hs2 & H).
  apply setitem_ok in Hs2 as (d' & Hd' & ->).
  rewrite lookup_insert_eq in Hd'. injection Hd' as <-.
  injection H as <- <-. split; [reflexivity|].
  exists s, t', d1, ms, tokens, mask. rewrite !insert_insert_eq. cbn. auto 10.
Qed.

Lemma mask_stage_ok self sample inference h2 r h3 :
  mask_stage self sample inference h2 = (Ok r, h3) ->
  r = sample /\
  exists s x d2 tokens e m,
    h2 !! self = Some (OTransform s) /\
    h2 !! xattn_mask s = Some (OCrossAttentionMask x) /\
    h2 !! sample = Some (OSample d2) /\
    d2 !! "tokens" = Some (VTokens tokens) /\
    d2 !! "encoder_input" = Some (VEncoderInput e) /\
    xattn_build x tokens e inference = Ok m /\
    h3 = <[sample := OSample (<["encoder_mask" := VEncoderMask m]> d2)]> h2.
Proof.
  unfold mask_stage, VisionCrossAttentionMask_call. intros H.
  apply bind_ok in H as (xl & h' & Ha & H).
  apply transform_attr_ok in Ha as (-> & s & Hs & ->).
  apply bind_ok in H as (x & h' & Hx & H).
  apply xattn_attr_ok in Hx as (-> & x' & Hx & ->).
  apply bind_ok in H as (v & h' & Hg & H).
  apply getitem_ok in Hg as (-> & d2 & Hd & Hk).
  apply bind_ok in H as (ts & h' & Hm & H).
  apply as_tokens_ok in Hm as (-> & ->).
  apply bind_ok in H as (v & h' & Hg & H).
  apply getitem_ok in Hg as (-> & d2' & Hd2 & Hk2).
  rewrite Hd in Hd2. injection Hd2 as <-.
  apply bind_ok in H as (e & h' & Hm & H).
  apply as_encoder_input_ok in Hm as (-> & ->).
  apply bind_ok in H as (m & h' & Hr & H).
  apply read_ok in Hr as (-> & Hr).
  apply bind_ok in H as ([] & h' & Hs1 & H).
  apply setitem_ok in Hs1 as (d' & Hd' & ->).
  rewrite Hd in Hd'. injection Hd' as <-.
  injection H as <- <-. split; [reflexivity|].
  exists s, x', d2, ts, e, m. auto 10.
Qed.

(** The mask stage can only raise before its one write. *)
Lemma mask_stage_raise self sample inference h2 e h3 :
  mask_stage self sample inference h2 = (Raise e, h3) -> h3 = h2.
Proof.
  unfold mask_stage, VisionCrossAttentionMask_call, bind, transform_attr,
    xattn_attr, getitem, as_tokens, as_encoder_input, read, setitem, ret, raise.
  destruct (h2 !! self) as [[| | | | | |s]|]; try (intros [= _ <-]; reflexivity).
  destruct (h2 !! xattn_mask s) as [[| | | | |x|]|]; try (intros [= _ <-]; reflexivity).
  destruct (h2 !! sample) as [[d| | | | | |]|] eqn:Hd; try (intros [= _ <-]; reflexivity).
  destruct (d !! "tokens") as [[| | | | |ts| |]|]; try (intros [= _ <-]; reflexivity).
  rewrite Hd.
  destruct (d !! "encoder_input") as [[| | | |ei| | |]|]; try (intros [= _ <-]; reflexivity).
  destruct (xattn_build x ts ei inference) as [m|e']; try (intros [= _ <-]; reflexivity).
  rewrite Hd. discriminate.
Qed.

(** ** Computations that only read the store *)

Lemma reads_only_ret {A} (a : A) : reads_only (ret a).
Proof. intros h. reflexivity. Qed.

Lemma reads_only_raise {A} e : reads_only (@raise _ A e).
Proof. intros h. reflexivity. Qed.

Lemma reads_only_read {A} (f : heap -> outcome A) : reads_only (read f).
Proof. intros h. reflexivity. Qed.

Lemma reads_only_getitem d key : reads_only (getitem d key).
Proof.
  intros h. unfold getitem.
  destruct (h !! d) as [[m| | | | | |]|]; try reflexivity.
  destruct (m !! key); reflexivity.
Qed.

Lemma reads_only_transform_attr {A} l (f : Llama3VisionTransform -> A) :
  reads_only (transform_attr l f).
Proof.
  intros h. unfold transform_attr.
  destruct (h !! l) as [[| | | | | |s]|]; reflexivity.
Qed.

Lemma reads_only_tokenizer_attr {A} l (f : Llama3Tokenizer.t -> A) :
  reads_only (tokenizer_attr l f).
Proof.
  intros h. unfold tokenizer_attr.
  destruct (h !! l) as [[| | |t| | |]|]; reflexivity.
Qed.

Lemma reads_only_image_transform_attr {A} l (f : CLIPImageTransform.t -> A) :
  reads_only (image_transform_attr l f).
Proof.
  intros h. unfold image_transform_attr.
  destruct (h !! l) as [[| | | |c| |]|]; reflexivity.
Qed.

Lemma reads_only_xattn_attr {A} l (f : VisionCrossAttentionMask.t -> A) :
  reads_only (xattn_attr l f).
Proof.
  intros h. unfold xattn_attr.
  destruct (h !! l) as [[| | | | |x|]|]; reflexivity.
Qed.

Lemma reads_only_as_messages v : reads_only (as_messages v).
Proof. intros h. destruct v; reflexivity. Qed.

Lemma reads_only_bind {A B} (m : M A) (k : A -> M B) :
  reads_only m -> (forall a, reads_only (k a)) -> reads_only (bind m k).
Proof.
  intros Hm Hk h. unfold bind. specialize (Hm h).
  destruct (m h) as [[a|e] h1]; cbn in Hm; subst h1; [apply Hk | reflexivity].
Qed.

Lemma reads_only_for_each {A S} (xs : list A) (body : S -> A -> M S) :
  (forall acc x, reads_only (body acc x)) ->
  forall acc, reads_only (for_each xs body acc).
Proof.
  intros Hb. induction xs as [|x xs IH]; intros acc; cbn.
  - apply reads_only_ret.
  - apply reads_only_bind; [apply Hb | exact IH].
Qed.

Create HintDb reads discriminated.
#[local] Hint Resolve reads_only_ret reads_only_raise reads_only_read
  reads_only_getitem reads_only_transform_attr reads_only_tokenizer_attr
  reads_only_image_transform_attr reads_only_xattn_attr reads_only_as_messages
  reads_only_for_each : reads.
#[local] Hint Extern 2 (reads_only (bind _ _)) =>
  apply reads_only_bind; [|intro] : reads.

Lemma reads_only_append_image self inference acc image :
  reads_only (append_image self inference acc image).
Proof. unfold append_image, CLIPImageTransform_call. auto 10 with reads. Qed.

Lemma reads_only_image_loop self inference ms acc :
  reads_only
    (for_each ms (fun encoder_input message =>
       for_each (get_media message) (append_image self inference) encoder_input) acc).
Proof.
  apply reads_only_for_each. intros acc' m.
  apply reads_only_for_each. intros acc'' x. apply reads_only_append_image.
Qed.

Lemma reads_only_encode self text add_bos add_eos :
  reads_only (encode self text add_bos add_eos).
Proof. unfold encode, Llama3Tokenizer_encode. auto 10 with reads. Qed.

Lemma reads_only_decode self token_ids truncate_at_eos skip_special_tokens :
  reads_only (decode self token_ids truncate_at_eos skip_special_tokens).
Proof. unfold decode, Llama3Tokenizer_decode. auto 10 with reads. Qed.

Lemma reads_only_tokenize_message self message add_start_tokens add_end_tokens :
  reads_only (tokenize_message self message add_start_tokens add_end_tokens).
Proof. unfold tokenize_message, Llama3Tokenizer_tokenize_message. auto 10 with reads. Qed.

Lemma reads_only_tokenize_messages self messages add_end_tokens :
  reads_only (tokenize_messages self messages add_end_tokens).
Proof. unfold tokenize_messages, Llama3Tokenizer_tokenize_messages. auto 10 with reads. Qed.

(** ** [__call__] writes to the sample only *)

Lemma only_sample_refl sample (h : heap) : only_sample sample h h.
Proof. left. reflexivity. Qed.

Lemma only_sample_insert sample (h : heap) d d' :
  h !! sample = Some (OSample d) ->
  only_sample sample h (<[sample := OSample d']> h).
Proof. intros Hd. right. eauto. Qed.

Lemma only_sample_trans sample (h h1 h2 : heap) :
  only_sample sample h h1 -> only_sample sample h1 h2 -> only_sample sample h h2.
Proof.
  intros [->|(d & d1 & Hd & ->)] H2; [exact H2|].
  destruct H2 as [->|(d2 & d3 & _ & ->)].
  - right. eauto.
  - right. exists d, d3. rewrite insert_insert_eq. auto.
Qed.

Lemma only_sample_other sample (h h' : heap) l :
  only_sample sample h h' -> l <> sample -> h' !! l = h !! l.
Proof.
  intros [->|(d & d' & _ & ->)] Hne; [reflexivity|].
  apply lookup_insert_ne. congruence.
Qed.

Lemma only_sample_transform sample (h h' : heap) l s :
  only_sample sample h h' ->
  h !! l = Some (OTransform s) -> h' !! l = Some (OTransform s).
Proof.
  intros Ho Hl. destruct (decide (l = sample)) as [->|Hne].
  - destruct Ho as [->|(d & d' & Hd & ->)]; [exact Hl|congruence].
  - rewrite (only_sample_other _ _ _ _ Ho Hne). exact Hl.
Qed.

(** The tokenizer stage can raise before it has touched the sample, or
    after it has taken the messages out of it. *)
Lemma tokenizer_stage_raise self sample inference h1 e h2 :
  tokenizer_stage self sample inference h1 = (Raise e, h2) ->
  h2 = h1 \/
  exists d1, h1 !! sample = Some (OSample d1) /\
             is_Some (d1 !! "messages") /\
             h2 = <[sample := OSample (delete "messages" d1)]> h1.
Proof.
  unfold tokenizer_stage, Llama3Tokenizer_call. intros H.
  apply bind_raise in H as [H|(tk & h' & Ha & H)].
  { left. pose proof (reads_only_transform_attr self tokenizer h1) as Hr.
    rewrite H in Hr. exact Hr. }
  apply transform_attr_ok in Ha as (-> & s & Hs & ->).
  apply bind_raise in H as [H|(t & h' & Ht & H)].
  { left. pose proof (reads_only_tokenizer_attr (tokenizer s) (fun t => t) h1) as Hr.
    rewrite H in Hr. exact Hr. }
  apply tokenizer_attr_ok in Ht as (-> & t' & Ht & ->).
  apply bind_raise in H as [H|(v & h' & Hg & H)].
  { left. apply (pop_raise _ _ _ _ _ H). }
  apply pop_ok in Hg as (d1 & Hd & Hk & ->).
  right. exists d1. split; [exact Hd|]. split; [eauto|].
  apply bind_raise in H as [H|(ms & h' & Hm & H)].
  { pose proof (reads_only_as_messages v
                  (<[sample := OSample (delete "messages" d1)]> h1)) as Hr.
    rewrite H in Hr. exact Hr. }
  apply as_messages_ok in Hm as (-> & ->).
  apply bind_raise in H as [H|(tm & h' & Hr & H)].
  { unfold read in H. injection H as _ <-. reflexivity. }
  apply read_ok in Hr as (-> & Hr).
  apply bind_raise in H as [H|([] & h' & Hs1 & H)].
  { erewrite setitem_sample in H by apply lookup_insert_eq. discriminate. }
  apply setitem_ok in Hs1 as (d' & Hd' & ->).
  apply bind_raise in H as [H|([] & h' & Hs2 & H)].
  { erewrite setitem_sample in H by apply lookup_insert_eq. discriminate. }
  discriminate.
Qed.

Lemma image_stage_raise self sample inference h e h1 :
  image_stage self sample inference h = (Raise e, h1) -> h1 = h.
Proof.
  unfold image_stage. cbv zeta. intros H.
  apply bind_raise in H as [H|(v & h' & Hg & H)].
  { pose proof (reads_only_getitem sample "messages" h) as Hr.
    rewrite H in Hr. exact Hr. }
  apply getitem_ok in Hg as (-> & d & Hd & Hk).
  apply bind_raise in H as [H|(ms & h' & Hm & H)].
  { pose proof (reads_only_as_messages v h) as Hr. rewrite H in Hr. exact Hr. }
  apply as_messages_ok in Hm as (-> & ->).
  apply bind_raise in H as [H|(enc & h' & Hl & H)].
  { pose proof (reads_only_image_loop self inference ms
                  {| images := []; aspect_ratio := [] |} h) as Hr.
    rewrite H in Hr. exact Hr. }
  apply outer_loop_ok in Hl as (-> & _).
  rewrite (setitem_sample _ _ _ _ _ Hd) in H. discriminate.
Qed.

Lemma call_only_sample self sample inference h :
  only_sample sample h (snd (__call__ self sample inference h)).
Proof.
  rewrite call_stages. unfold bind.
  destruct (image_stage self sample inference h) as [[[]|e] h1] eqn:H1.
  2:{ apply image_stage_raise in H1 as ->. apply only_sample_refl. }
  apply image_stage_ok in H1 as (d & ms & outs & Hd & _ & _ & Hh1).
  apply only_sample_trans with h1.
  { rewrite Hh1. eapply only_sample_insert. exact Hd. }
  destruct (tokenizer_stage self sample inference h1) as [[r|e] h2] eqn:H2.
  2:{ apply tokenizer_stage_raise in H2 as [->|(d1 & Hd1 & _ & ->)].
      - apply only_sample_refl.
      - eapply only_sample_insert. exact Hd1. }
  apply tokenizer_stage_ok in H2 as (-> & s & t & d1 & ms1 & tokens & mask
                                     & _ & _ & Hd1 & _ & _ & Hh2).
  apply only_sample_trans with h2.
  { rewrite Hh2. eapply only_sample_insert. exact Hd1. }
  destruct (mask_stage self sample inference h2) as [[r|e] h3] eqn:H3.
  2:{ apply mask_stage_raise in H3 as ->. apply only_sample_refl. }
  apply mask_stage_ok in H3 as (-> & s' & x & d2 & ts & ei & m
                                & _ & _ & Hd2 & _ & _ & _ & ->).
  eapply only_sample_insert. exact Hd2.
Qed.


(** What a construction that returns has done. *)
Lemma init_ok path tile_size patch_size max_num_tiles special_tokens_path
    max_seq_len image_mean image_std prompt_template h self h' :
  __init__ path tile_size patch_size max_num_tiles special_tokens_path
    max_seq_len image_mean image_std prompt_template h = (Ok self, h') ->
  exists h3 tok ti xm t x,
    h3 !! tok = Some (OTokenizer t) /\
    h3 !! xm = Some (OCrossAttentionMask x) /\
    h3 !! self = None /\
    h' = <[self := OTransform {|
             tokenizer := tok;
             transform_image := ti;
             xattn_mask := xm;
             stop_tokens := Llama3Tokenizer.stop_tokens t;
             special_tokens := Llama3Tokenizer.special_tokens t;
             max_seq_len := max_seq_len;
             max_num_tiles := max_num_tiles;
             image_seq_len :=
               (max_num_tiles * (VisionCrossAttentionMask.patches_per_tile x + 1))%Z;
             prompt_template := prompt_template;
             pad_id := Llama3Tokenizer.pad_id t |}]> h3.
Proof.
  unfold __init__. intros H.
  apply bind_ok in H as (tok & h1 & _ & H).
  apply bind_ok in H as (ti & h2 & _ & H).
  apply bind_ok in H as (iid & h2' & Hi & H).
  apply tokenizer_attr_ok in Hi as (-> & _).
  apply bind_ok in H as (xm & h3 & _ & H).
  apply bind_ok in H as (st & h3' & Ha & H).
  apply tokenizer_attr_ok in Ha as (-> & t & Ht & ->).
  apply bind_ok in H as (sp & h3' & Ha & H).
  apply tokenizer_attr_ok in Ha as (-> & t' & Ht' & ->).
  rewrite Ht in Ht'. injection Ht' as <-.
  apply bind_ok in H as (ppt & h3' & Ha & H).
  apply xattn_attr_ok in Ha as (-> & x & Hx & ->).
  apply bind_ok in H as (pid & h3' & Ha & H).
  apply tokenizer_attr_ok in Ha as (-> & t' & Ht' & ->).
  rewrite Ht in Ht'. injection Ht' as <-.
  unfold alloc in H. injection H as <- <-.
  exists h3, tok, ti, xm, t, x. repeat split; try assumption.
  apply not_elem_of_dom, is_fresh.
Qed.

(** Once the image stage has completed, the call continues with the two
    later stages on the store it left. *)
Lemma call_after_image_stage self sample inference h h1 :
  image_stage self sample inference h = (Ok tt, h1) ->
  __call__ self sample inference h =
  bind (tokenizer_stage self sample inference)
       (fun sample' => mask_stage self sample' inference) h1.
Proof.
  intros H. rewrite call_stages. unfold bind at 1. rewrite H. reflexivity.
Qed.

(** ** The claims about [__call__] *)

(** C1: when the image stage of [__call__] completes, the [encoder_input] it
    attaches to the sample holds two sequences of one length, [images] and
    [aspect_ratio]; that length is the total number of media items of the
    messages; entry [i] of each is what the image transform returned for the
    [i]-th media item in encounter order; with no media items both are
    empty; the rest of the call runs on the store so obtained, and a call
    that returns still carries this [encoder_input]. *)
Theorem encoder_input_parallel_in_encounter_order self sample inference h h1 :
  image_stage self sample inference h = (Ok tt, h1) ->
  exists d ms e,
    h !! sample = Some (OSample d) /\
    d !! "messages" = Some (VMessages ms) /\
    h1 = <[sample := OSample (<["encoder_input" := VEncoderInput e]> d)]> h /\
    __call__ self sample inference h =
      bind (tokenizer_stage self sample inference)
           (fun sample' => mask_stage self sample' inference) h1 /\
    length (images e) = length (aspect_ratio e) /\
    length (images e) = sum_list ((fun m => length (get_media m)) <$> ms) /\
    (forall i image,
       all_media ms !! i = Some image ->
       exists out,
         transformed_by self inference h image out /\
         images e !! i = Some (out_image out) /\
         aspect_ratio e !! i = Some (out_aspect_ratio out)) /\
    (all_media ms = [] -> images e = [] /\ aspect_ratio e = []) /\
    (forall r h',
       __call__ self sample inference h = (Ok r, h') ->
       exists d', h' !! sample = Some (OSample d') /\
                  d' !! "encoder_input" = Some (VEncoderInput e)).
Proof.
  intros H. pose proof H as H0.
  apply image_stage_ok in H as (d & ms & outs & Hd & Hms & Houts & Hh1).
  pose proof (call_after_image_stage _ _ _ _ _ H0) as Hcall.
  exists d, ms, {| images := out_image <$> outs;
                   aspect_ratio := out_aspect_ratio <$> outs |}.
  cbn [images aspect_ratio].
  pose proof (Forall2_length _ _ _ Houts) as Hlen.
  split; [exact Hd|]. split; [exact Hms|]. split; [exact Hh1|].
  split; [exact Hcall|].
  split; [rewrite !length_fmap; reflexivity|].
  split; [rewrite length_fmap, <- Hlen; apply length_all_media|].
  split; [|split].
  - intros i image Hi.
    destruct (Forall2_lookup_l _ _ _ _ _ Houts Hi) as (out & Ho & Ht).
    exists out. rewrite !list_lookup_fmap, Ho. auto.
  - intros Hnil. rewrite Hnil in Hlen. destruct outs; [auto|discriminate].
  - intros r h' Hr. rewrite Hcall in Hr.
    apply bind_ok in Hr as (r1 & h2 & H2 & H3).
    apply tokenizer_stage_ok in H2 as (-> & s & t & d1 & ms1 & tokens & mask
                                       & _ & _ & Hd1 & _ & _ & ->).
    rewrite Hh1, lookup_insert_eq in Hd1. injection Hd1 as <-.
    apply mask_stage_ok in H3 as (-> & s' & x & d2 & ts & ei & m
                                  & _ & _ & Hd2 & _ & _ & _ & ->).
    rewrite lookup_insert_eq in Hd2. injection Hd2 as <-.
    eexists. split; [apply lookup_insert_eq|].
    rewrite !lookup_insert_ne by discriminate.
    rewrite lookup_delete_ne by discriminate. apply lookup_insert_eq.
Qed.


(** C8: [__call__] is not atomic on error.  Once the image stage has
    completed the caller's mapping holds the new [encoder_input]; if the
    tokenizer stage then raises, the call raises the same error and leaves
    the mapping with that field (and, if the tokenizer had already taken
    them, without its messages); if the mask stage raises, the call raises
    and leaves the mapping with [encoder_input], [tokens] and [mask]. *)
Theorem call_not_atomic_on_error self sample inference h h1 :
  image_stage self sample inference h = (Ok tt, h1) ->
  exists d e,
    h !! sample = Some (OSample d) /\
    h1 !! sample = Some (OSample (<["encoder_input" := VEncoderInput e]> d)) /\
    (forall err h2,
       tokenizer_stage self sample inference h1 = (Raise err, h2) ->
       __call__ self sample inference h = (Raise err, h2) /\
       (h2 = h1 \/
        h2 = <[sample := OSample
                 (delete "messages"
                    (<["encoder_input" := VEncoderInput e]> d))]> h1) /\
       exists d2,
         h2 !! sample = Some (OSample d2) /\
         d2 !! "encoder_input" = Some (VEncoderInput e)) /\
    (forall r h2 err h3,
       tokenizer_stage self sample inference h1 = (Ok r, h2) ->
       mask_stage self r inference h2 = (Raise err, h3) ->
       exists tokens mask,
         __call__ self sample inference h = (Raise err, h2) /\
         h2 !! sample =
           Some (OSample (<["mask" := VMask mask]>
                            (<["tokens" := VTokens tokens]>
                               (delete "messages"
                                  (<["encoder_input" := VEncoderInput e]> d)))))).
Proof.
  intros H. pose proof H as H0.
  apply image_stage_ok in H as (d & ms & outs & Hd & Hms & Houts & Hh1).
  pose proof (call_after_image_stage _ _ _ _ _ H0) as Hcall.
  exists d, {| images := out_image <$> outs;
               aspect_ratio := out_aspect_ratio <$> outs |}.
  assert (Hd1 : h1 !! sample =
                Some (OSample (<["encoder_input" :=
                                   VEncoderInput {| images := out_image <$> outs;
                                                    aspect_ratio := out_aspect_ratio <$> outs |}]>
                                 d)))
    by (rewrite Hh1; apply lookup_insert_eq).
  split; [exact Hd|]. split; [exact Hd1|]. split.
  - intros err h2 H2. split.
    { rewrite Hcall. unfold bind. rewrite H2. reflexivity. }
    apply tokenizer_stage_raise in H2 as [->|(d1 & Hd1' & _ & ->)].
    + split; [left; reflexivity|]. eexists. split; [exact Hd1|].
      apply lookup_insert_eq.
    + rewrite Hd1 in Hd1'. injection Hd1' as <-.
      split; [right; reflexivity|]. eexists. split; [apply lookup_insert_eq|].
      rewrite lookup_delete_ne by discriminate. apply lookup_insert_eq.
  - intros r h2 err h3 H2 H3. pose proof H2 as H2'.
    apply tokenizer_stage_ok in H2' as (-> & s & t & d1 & ms1 & tokens & mask
                                        & _ & _ & Hd1' & _ & _ & Hh2).
    rewrite Hd1 in Hd1'. injection Hd1' as <-.
    exists tokens, mask. split.
    + rewrite Hcall. unfold bind. rewrite H2, H3.
      apply mask_stage_raise in H3 as ->. reflexivity.
    + rewrite Hh2. apply lookup_insert_eq.
Qed.

(** C9: no public operation writes to the transform object.  [encode],
    [decode], [tokenize_message] and [tokenize_messages] leave the whole
    store as it is; [__call__] changes the sample only; so after each of
    them, returning or raising, the object still holds the attributes it
    held before. *)
Theorem transform_read_only_after_construction self s h :
  h !! self = Some (OTransform s) ->
  (forall text add_bos add_eos,
     snd (encode self text add_bos add_eos h) = h) /\
  (forall token_ids truncate_at_eos skip_special_tokens,
     snd (decode self token_ids truncate_at_eos skip_special_tokens h) = h) /\
  (forall message add_start_tokens add_end_tokens,
     snd (tokenize_message self message add_start_tokens add_end_tokens h) = h) /\
  (forall messages add_end_tokens,
     snd (tokenize_messages self messages add_end_tokens h) = h) /\
  (forall sample inference,
     snd (__call__ self sample inference h) !! self = Some (OTransform s)).
Proof.
  intros Hs. repeat split.
  - intros. apply reads_only_encode.
  - intros. apply reads_only_decode.
  - intros. apply reads_only_tokenize_message.
  - intros. apply reads_only_tokenize_messages.
  - intros sample inference.
    eapply only_sample_transform; [apply call_only_sample | exact Hs].
Qed.

(** ** The claims about construction and the exposed properties *)

(** C4: a construction that returns leaves a transform whose
    [image_seq_len] is [max_num_tiles * (patches_per_tile + 1)], with
    [patches_per_tile] read from the mask builder it owns; the value is set
    in the constructor and no later [__call__], on whatever sample, changes
    it. *)
Theorem image_seq_len_formula path tile_size patch_size tiles
    special_tokens_path max_seq_len image_mean image_std prompt_template h self h' :
  __init__ path tile_size patch_size tiles special_tokens_path
    max_seq_len image_mean image_std prompt_template h = (Ok self, h') ->
  exists s x,
    h' !! self = Some (OTransform s) /\
    h' !! xattn_mask s = Some (OCrossAttentionMask x) /\
    max_num_tiles s = tiles /\
    image_seq_len s =
      (tiles * (VisionCrossAttentionMask.patches_per_tile x + 1))%Z /\
    (forall sample inference,
       fst (transform_attr self image_seq_len
              (snd (__call__ self sample inference h')))
       = Ok (tiles * (VisionCrossAttentionMask.patches_per_tile x + 1))%Z).
Proof.
  intros H.
  apply init_ok in H as (h3 & tok & ti & xm & t & x & Ht & Hx & Hfresh & ->).
  eexists _, x. split; [apply lookup_insert_eq|]. cbn.
  split; [|split; [reflexivity|split; [reflexivity|]]].
  - rewrite lookup_insert_ne; [exact Hx|]. intros <-. congruence.
  - intros sample inference. unfold transform_attr.
    rewrite (only_sample_transform sample _ _ self _
               (call_only_sample self sample inference _)
               (lookup_insert_eq h3 self _)).
    reflexivity.
Qed.

(** C3 as amended: [base_vocab_size] and [vocab_size] are read through the
    owned tokenizer on every access and so always show its current values;
    [stop_tokens], [special_tokens] and [pad_id] are attributes of the
    transform, assigned in the constructor from the tokenizer's values at
    that time, and re-assigning the tokenizer's attributes afterwards does
    not change them. *)
Theorem vocab_sizes_read_through_tokens_stored :
  (forall self s t (h : heap),
     h !! self = Some (OTransform s) ->
     h !! tokenizer s = Some (OTokenizer t) ->
     base_vocab_size self h = (Ok (Llama3Tokenizer.base_vocab_size t), h) /\
     vocab_size self h = (Ok (Llama3Tokenizer.vocab_size t), h)) /\
  (forall path tile_size patch_size max_num_tiles special_tokens_path
          max_seq_len image_mean image_std prompt_template h self h',
     __init__ path tile_size patch_size max_num_tiles special_tokens_path
       max_seq_len image_mean image_std prompt_template h = (Ok self, h') ->
     exists s t,
       h' !! self = Some (OTransform s) /\
       h' !! tokenizer s = Some (OTokenizer t) /\
       stop_tokens s = Llama3Tokenizer.stop_tokens t /\
       special_tokens s = Llama3Tokenizer.special_tokens t /\
       pad_id s = Llama3Tokenizer.pad_id t) /\
  (forall self s t t' (h : heap),
     h !! self = Some (OTransform s) ->
     h !! tokenizer s = Some (OTokenizer t) ->
     let h2 := <[tokenizer s := OTokenizer t']> h in
     transform_attr self stop_tokens h2 = (Ok (stop_tokens s), h2) /\
     transform_attr self special_tokens h2 = (Ok (special_tokens s), h2) /\
     transform_attr self pad_id h2 = (Ok (pad_id s), h2) /\
     vocab_size self h2 = (Ok (Llama3Tokenizer.vocab_size t'), h2)).
Proof.
  split; [|split].
  - intros self s t h Hs Ht.
    unfold base_vocab_size, vocab_size, bind, transform_attr, tokenizer_attr.
    rewrite Hs, Ht. auto.
  - intros path tile_size patch_size max_num_tiles special_tokens_path
      max_seq_len image_mean image_std prompt_template h self h' H.
    apply init_ok in H as (h3 & tok & ti & xm & t & x & Ht & Hx & Hfresh & ->).
    eexists _, t. split; [apply lookup_insert_eq|]. cbn.
    split; [|auto].
    rewrite lookup_insert_ne; [exact Ht|]. intros <-. congruence.
  - intros self s t t' h Hs Ht h2.
    assert (Hne : tokenizer s <> self) by (intros Heq; rewrite Heq in Ht; congruence).
    assert (Hs2 : h2 !! self = Some (OTransform s)).
    { unfold h2. rewrite lookup_insert_ne by exact Hne. exact Hs. }
    unfold vocab_size, bind, transform_attr, tokenizer_attr. rewrite Hs2.
    assert (Ht2 : h2 !! tokenizer s = Some (OTokenizer t'))
      by apply lookup_insert_eq.
    rewrite Ht2. auto.
Qed.

End TransformFacts.

(** * The claims on concrete samples *)

Module ExampleFacts.
Import Example.
Local Open Scope Z_scope.

Lemma ex_built_ok :
  __init__ "/path/to/tokenizer.model" 224 14 default_max_num_tiles
    None None None None None ∅ = (Ok ex_self, ex_heap).
Proof. vm_compute. reflexivity. Qed.

Lemma ex_self_lookup : ex_heap !! ex_self = Some (OTransform ex_transform).
Proof. vm_compute. reflexivity. Qed.

Lemma with_sample_lookup ms :
  with_sample ms !! ex_sample = Some (OSample {[ "messages" := VMessages ms ]}).
Proof. unfold with_sample. apply lookup_insert_eq. Qed.

(** Two messages with two images and one image: three entries each, in
    the order the images were met.  A text-only message: both sequences
    empty. *)
Lemma encoder_input_parallel_witness :
  (exists e,
     ex_after_images ex_messages !! ex_sample =
       Some (OSample (<["encoder_input" := VEncoderInput e]>
                        {[ "messages" := VMessages ex_messages ]})) /\
     length (images e) = 3%nat /\
     length (aspect_ratio e) = 3%nat /\
     images e !! 2%nat = Some (224, 672)) /\
  ex_after_images ex_text_only !! ex_sample =
    Some (OSample (<["encoder_input" :=
                       VEncoderInput {| images := []; aspect_ratio := [] |}]>
                     {[ "messages" := VMessages ex_text_only ]})).
Proof.
  split.
  - destruct (encoder_input_parallel_in_encounter_order
                ex_self ex_sample false (with_sample ex_messages)
                (ex_after_images ex_messages))
      as (d & ms & e & Hd & Hms & Hh1 & _ & Hlen & Hsum & Hord & _).
    { vm_compute. reflexivity. }
    rewrite with_sample_lookup in Hd. injection Hd as <-.
    rewrite lookup_singleton_eq in Hms. injection Hms as <-.
    exists e. split; [rewrite Hh1; apply lookup_insert_eq|].
    split; [exact Hsum|]. split; [rewrite <- Hlen; exact Hsum|].
    destruct (Hord 2%nat (224, 672) eq_refl)
      as (out & (s & c & Hs & Hc & Hout) & Hi & _).
    refine (eq_trans Hi _). f_equal.
    unfold clip_transform, external, ex_clip_transform in Hout.
    cbn in Hout. injection Hout as <-. reflexivity.
  - destruct (encoder_input_parallel_in_encounter_order
                ex_self ex_sample false (with_sample ex_text_only)
                (ex_after_images ex_text_only))
      as (d & ms & e & Hd & Hms & Hh1 & _ & _ & _ & _ & Hnil & _).
    { vm_compute. reflexivity. }
    rewrite with_sample_lookup in Hd. injection Hd as <-.
    rewrite lookup_singleton_eq in Hms. injection Hms as <-.
    destruct (Hnil eq_refl) as [Hi Ha]. destruct e as [im ar]. cbn in Hi, Ha.
    subst im ar. rewrite Hh1. apply lookup_insert_eq.
Defined.



(** A message the tokenizer rejects, and a placeholder without an image,
    which the mask builder rejects: the call raises and the sample keeps
    what the earlier stages wrote. *)
Lemma call_not_atomic_witness :
  (exists h2 d2,
     __call__ ex_self ex_sample false (with_sample ex_bad_role)
       = (Raise TokenizationError, h2) /\
     with_sample ex_bad_role !! ex_sample
       = Some (OSample {[ "messages" := VMessages ex_bad_role ]}) /\
     h2 !! ex_sample = Some (OSample d2) /\
     is_Some (d2 !! "encoder_input")) /\
  (exists h2 d2,
     __call__ ex_self ex_sample false (with_sample ex_orphan_token)
       = (Raise MaskAlignmentError, h2) /\
     h2 !! ex_sample = Some (OSample d2) /\
     is_Some (d2 !! "encoder_input") /\
     is_Some (d2 !! "tokens") /\
     is_Some (d2 !! "mask") /\
     d2 !! "encoder_mask" = None).
Proof.
  split.
  - destruct (call_not_atomic_on_error
                ex_self ex_sample false (with_sample ex_bad_role)
                (ex_after_images ex_bad_role))
      as (d & e & Hd & Hd1 & Htok & _).
    { vm_compute. reflexivity. }
    destruct (Htok TokenizationError
                (snd (tokenizer_stage ex_self ex_sample false
                        (ex_after_images ex_bad_role))))
      as (Hcall & _ & d2 & Hd2 & He).
    { vm_compute. reflexivity. }
    eexists _, d2.
    split; [exact Hcall|]. split; [apply with_sample_lookup|].
    split; [exact Hd2|]. rewrite He. eauto.
  - destruct (call_not_atomic_on_error
                ex_self ex_sample false (with_sample ex_orphan_token)
                (ex_after_images ex_orphan_token))
      as (d & e & Hd & Hd1 & _ & Hmask).
    { vm_compute. reflexivity. }
    rewrite with_sample_lookup in Hd. injection Hd as <-.
    destruct (Hmask ex_sample
                (snd (tokenizer_stage ex_self ex_sample false
                        (ex_after_images ex_orphan_token)))
                MaskAlignmentError
                (snd (tokenizer_stage ex_self ex_sample false
                        (ex_after_images ex_orphan_token))))
      as (tokens & mask & Hcall & Hd2).
    { vm_compute. reflexivity. }
    { vm_compute. reflexivity. }
    eexists _, _. split; [exact Hcall|]. split; [exact Hd2|].
    split; [|split; [|split]].
    + rewrite !lookup_insert_ne by discriminate.
      rewrite lookup_delete_ne by discriminate. rewrite lookup_insert_eq. eauto.
    + rewrite lookup_insert_ne by discriminate. rewrite lookup_insert_eq. eauto.
    + rewrite lookup_insert_eq. eauto.
    + rewrite !lookup_insert_ne by discriminate.
      rewrite lookup_delete_ne by discriminate.
      rewrite lookup_insert_ne by discriminate. reflexivity.
Defined.

Lemma transform_read_only_witness :
  snd (encode ex_self "hello" true true ex_heap) = ex_heap /\
  snd (decode ex_self [128000; 5; 128001] true true ex_heap) = ex_heap /\
  snd (__call__ ex_self ex_sample false (with_sample ex_messages)) !! ex_self
    = Some (OTransform ex_transform) /\
  snd (__call__ ex_self ex_sample false (with_sample ex_bad_role)) !! ex_self
    = Some (OTransform ex_transform).
Proof.
  assert (Hw : forall ms, with_sample ms !! ex_self = Some (OTransform ex_transform)).
  { intros ms. unfold with_sample. rewrite lookup_insert_ne by discriminate.
    exact ex_self_lookup. }
  split; [|split; [|split]].
  - apply (transform_read_only_after_construction ex_self ex_transform ex_heap
             ex_self_lookup).
  - apply (transform_read_only_after_construction ex_self ex_transform ex_heap
             ex_self_lookup).
  - apply (transform_read_only_after_construction ex_self ex_transform _ (Hw _)).
  - apply (transform_read_only_after_construction ex_self ex_transform _ (Hw _)).
Defined.

(** [tile_size = 224], [patch_size = 14], four tiles:
    [4 * ((224 / 14)^2 + 1) = 1028]. *)
Lemma image_seq_len_witness :
  exists s x,
    ex_heap !! ex_self = Some (OTransform s) /\
    ex_heap !! xattn_mask s = Some (OCrossAttentionMask x) /\
    VisionCrossAttentionMask.patches_per_tile x = 256 /\
    image_seq_len s = 1028.
Proof.
  destruct (image_seq_len_formula "/path/to/tokenizer.model" 224 14
              default_max_num_tiles None None None None None ∅ ex_self ex_heap)
    as (s & x & Hs & Hx & _ & Hlen & _).
  { vm_compute. reflexivity. }
  exists s, x. split; [exact Hs|]. split; [exact Hx|].
  rewrite ex_self_lookup in Hs. injection Hs as <-.
  assert (Hp : VisionCrossAttentionMask.patches_per_tile x = 256).
  { vm_compute in Hx. injection Hx as <-. reflexivity. }
  split; [exact Hp|]. rewrite Hlen, Hp. reflexivity.
Defined.

(** C3, counterexample: after construction, client code re-assigns the
    tokenizer's [pad_id], [stop_tokens] and [special_tokens]; the transform
    still shows the values it copied in its constructor, while [vocab_size]
    follows the tokenizer. *)
Lemma stored_attributes_are_not_read_through :
  fst ex_built = Ok ex_self /\
  fst (transform_attr ex_self tokenizer ex_heap_reassigned) = Ok ex_tokenizer /\
  fst (transform_attr ex_self pad_id ex_heap_reassigned) = Ok 128004 /\
  fst (tokenizer_attr ex_tokenizer Llama3Tokenizer.pad_id ex_heap_reassigned) = Ok 0 /\
  fst (transform_attr ex_self stop_tokens ex_heap_reassigned) = Ok 1%positive /\
  fst (tokenizer_attr ex_tokenizer Llama3Tokenizer.stop_tokens ex_heap_reassigned)
    = Ok 9%positive /\
  fst (transform_attr ex_self special_tokens ex_heap_reassigned) = Ok 2%positive /\
  fst (tokenizer_attr ex_tokenizer Llama3Tokenizer.special_tokens ex_heap_reassigned)
    = Ok 10%positive /\
  fst (vocab_size ex_self ex_heap_reassigned) = Ok 128300.
Proof. vm_compute. repeat split. Qed.

Lemma vocab_sizes_read_through_witness :
  (exists s t,
     ex_heap !! ex_self = Some (OTransform s) /\
     ex_heap !! tokenizer s = Some (OTokenizer t) /\
     pad_id s = Llama3Tokenizer.pad_id t) /\
  transform_attr ex_self pad_id
    (<[ex_tokenizer := OTokenizer ex_tokenizer_reassigned]> ex_heap)
  = (Ok 128004, <[ex_tokenizer := OTokenizer ex_tokenizer_reassigned]> ex_heap) /\
  vocab_size ex_self
    (<[ex_tokenizer := OTokenizer ex_tokenizer_reassigned]> ex_heap)
  = (Ok 128300, <[ex_tokenizer := OTokenizer ex_tokenizer_reassigned]> ex_heap).
Proof.
  pose proof (@vocab_sizes_read_through_tokens_stored payload external)
    as (_ & Hinit & Hstored).
  split.
  - destruct (Hinit "/path/to/tokenizer.model" 224 14 default_max_num_tiles
                None None None None None ∅ ex_self ex_heap)
      as (s & t & Hs & Ht & _ & _ & Hp).
    { vm_compute. reflexivity. }
    exists s, t. auto.
  - assert (Ht : ex_heap !! tokenizer ex_transform
                 = Some (OTokenizer
                           {| Llama3Tokenizer.stop_tokens := 1%positive;
                              Llama3Tokenizer.special_tokens := 2%positive;
                              Llama3Tokenizer.pad_id := 128004;
                              Llama3Tokenizer.image_id := 128256;
                              Llama3Tokenizer.base_vocab_size := 128000;
                              Llama3Tokenizer.vocab_size := 128257;
                              Llama3Tokenizer.max_seq_len := None;
                              Llama3Tokenizer.prompt_template := None;
                              Llama3Tokenizer.tt_model := "/path/to/tokenizer.model" |}))
      by (vm_compute; reflexivity).
    destruct (Hstored ex_self ex_transform _ ex_tokenizer_reassigned ex_heap
                ex_self_lookup Ht) as (_ & _ & Hpad & Hvocab).
    split; [exact Hpad | exact Hvocab].
Defined.

End ExampleFacts.

(** * Further properties of the preference losses *)

Module RlhfProperties.
Import Torch Rlhf RlhfSpec RlhfFacts.
Local Open Scope R_scope.

(** ** The logistic sigmoid *)

Lemma sigmoid_pos x : 0 < sigmoid x.
Proof.
  unfold sigmoid. apply Rinv_0_lt_compat. pose proof (exp_pos (- x)). lra.
Qed.

Lemma sigmoid_lt_1 x : sigmoid x < 1.
Proof.
  unfold sigmoid. pose proof (exp_pos (- x)) as He.
  rewrite <- Rinv_1 at 2. apply Rinv_lt_contravar; lra.
Qed.

Lemma ln_sigmoid_neg x : ln (sigmoid x) < 0.
Proof.
  rewrite <- ln_1. apply ln_increasing; [apply sigmoid_pos | apply sigmoid_lt_1].
Qed.

Lemma ln_sigmoid_0 : ln (sigmoid 0) = - ln 2.
Proof.
  unfold sigmoid. rewrite Ropp_0, exp_0.
  replace (1 + 1) with 2 by lra. apply ln_Rinv. lra.
Qed.

(** ** The results of [forward] as maps over the logits *)

Lemma zip_with_fmap_same {A B C D} (f : B -> C -> D) (g : A -> B) (h : A -> C)
    (l : list A) :
  zip_with f (g <$> l) (h <$> l) = (fun x => f (g x) (h x)) <$> l.
Proof. induction l as [|x l IH]; cbn; [reflexivity|]. rewrite IH. reflexivity. Qed.

Lemma dpo_forward_data (self : DPOLoss.t) p r n :
  batch_shape n p -> batch_shape n r ->
  DPOLoss.forward self p r =
  Ok (mkTensor
        (spec_dpo_loss (DPOLoss.beta self) (DPOLoss.label_smoothing self)
           <$> logits_of p r)
        (inputs_require_grad p r || inputs_require_grad p r),
      mkTensor ((fun x => DPOLoss.beta self * x) <$>
                  zip_with Rminus (data (chosen_logps p)) (data (chosen_logps r))) false,
      mkTensor ((fun x => DPOLoss.beta self * x) <$>
                  zip_with Rminus (data (rejected_logps p)) (data (rejected_logps r))) false).
Proof.
  intros Hp Hr. rewrite (dpo_forward_same_shape self p r n Hp Hr). cbv zeta.
  fold (logits_of p r). fold (inputs_require_grad p r).
  do 4 f_equal. rewrite <- !list_fmap_compose, zip_with_fmap_same.
  apply list_fmap_ext. intros i l _. cbn. unfold spec_dpo_loss, logsigmoid_R.
  replace (- DPOLoss.beta self * l) with (- (DPOLoss.beta self * l)) by ring.
  reflexivity.
Qed.

Lemma rso_forward_data (self : RSOLoss.t) p r n :
  batch_shape n p -> batch_shape n r ->
  RSOLoss.forward self p r =
  Ok (mkTensor (spec_hinge_loss (RSOLoss.gamma self) <$> logits_of p r)
        (inputs_require_grad p r),
      mkTensor ((fun x => RSOLoss.gamma self * x) <$>
                  zip_with Rminus (data (chosen_logps p)) (data (chosen_logps r))) false,
      mkTensor ((fun x => RSOLoss.gamma self * x) <$>
                  zip_with Rminus (data (rejected_logps p)) (data (rejected_logps r))) false).
Proof.
  intros Hp Hr. rewrite (rso_forward_same_shape self p r n Hp Hr). cbv zeta.
  fold (logits_of p r). fold (inputs_require_grad p r).
  do 3 f_equal. rewrite <- !list_fmap_compose. reflexivity.
Qed.

Lemma length_logits_of p r n :
  batch_shape n p -> batch_shape n r -> length (logits_of p r) = n.
Proof.
  intros [H1 H2] [H3 H4]. unfold logits_of. rewrite !length_zip_with. lia.
Qed.

Lemma zip_sub_diag (l : list R) : zip_with Rminus l l = replicate (length l) 0.
Proof.
  induction l as [|x l IH]; cbn; [reflexivity|]. rewrite IH. f_equal. ring.
Qed.


(** ** Sign, zeros and reference values of the losses *)

(** X1: with [label_smoothing] in [[0, 1]], every entry of the DPO loss is
    non-negative. *)
Theorem dpo_loss_nonnegative (self : DPOLoss.t) p r n :
  batch_shape n p -> batch_shape n r ->
  0 <= DPOLoss.label_smoothing self <= 1 ->
  exists losses chosen_rewards rejected_rewards,
    DPOLoss.forward self p r = Ok (losses, chosen_rewards, rejected_rewards) /\
    length (data losses) = n /\
    Forall (fun x => 0 <= x) (data losses).
Proof.
  intros Hp Hr Hls. rewrite (dpo_forward_data self p r n Hp Hr).
  do 3 eexists. split; [reflexivity|]. cbn [data]. split.
  - rewrite length_fmap. apply (length_logits_of p r n Hp Hr).
  - apply Forall_fmap, Forall_forall. intros l _. cbn. unfold spec_dpo_loss.
    pose proof (ln_sigmoid_neg (DPOLoss.beta self * l)) as H1.
    pose proof (ln_sigmoid_neg (- (DPOLoss.beta self * l))) as H2.
    nra.
Qed.

Lemma dpo_loss_nonnegative_witness :
  exists losses chosen_rewards rejected_rewards,
    DPOLoss.forward (DPOLoss.__init__ (1 / 10) (1 / 4)) batch_policy batch_reference
      = Ok (losses, chosen_rewards, rejected_rewards) /\
    length (data losses) = 2%nat /\
    Forall (fun x => 0 <= x) (data losses).
Proof.
  apply (dpo_loss_nonnegative (DPOLoss.__init__ (1 / 10) (1 / 4))
           batch_policy batch_reference 2%nat).
  - split; reflexivity.
  - split; reflexivity.
  - cbn. lra.
Defined.

(** X2: every entry of the hinge (RSO) loss is non-negative; it is zero
    exactly when [gamma * logits] has reached the margin 1, and below the
    margin it is [1 - gamma * logits]. *)
Theorem rso_loss_zero_at_margin (self : RSOLoss.t) p r n :
  batch_shape n p -> batch_shape n r ->
  exists losses chosen_rewards rejected_rewards,
    RSOLoss.forward self p r = Ok (losses, chosen_rewards, rejected_rewards) /\
    forall i l,
      logits_of p r !! i = Some l ->
      exists x,
        data losses !! i = Some x /\
        0 <= x /\
        (x = 0 <-> 1 <= RSOLoss.gamma self * l) /\
        (RSOLoss.gamma self * l <= 1 -> x = 1 - RSOLoss.gamma self * l).
Proof.
  intros Hp Hr. rewrite (rso_forward_data self p r n Hp Hr).
  do 3 eexists. split; [reflexivity|]. cbn [data].
  intros i l Hl. eexists. rewrite list_lookup_fmap, Hl. split; [reflexivity|].
  unfold spec_hinge_loss, Rmax.
  destruct (Rle_dec 0 (1 - RSOLoss.gamma self * l)); repeat split; intros; lra.
Qed.

Lemma rso_loss_zero_at_margin_witness :
  exists losses chosen_rewards rejected_rewards,
    RSOLoss.forward (RSOLoss.__init__ 2) batch_policy batch_reference
      = Ok (losses, chosen_rewards, rejected_rewards) /\
    data losses !! 0%nat = Some 0 /\
    data losses !! 1%nat = Some 3.
Proof.
  destruct (rso_loss_zero_at_margin (RSOLoss.__init__ 2)
              batch_policy batch_reference 2%nat)
    as (losses & cr & rr & Hf & Hall).
  - split; reflexivity.
  - split; reflexivity.
  - exists losses, cr, rr. split; [exact Hf|]. split.
    + destruct (Hall 0%nat (2 - 1 - (1 - 1)) eq_refl) as (x & Hx & _ & Hz & _).
      rewrite Hx. f_equal. apply Hz. cbn. lra.
    + destruct (Hall 1%nat (1 / 2 - 3 / 2 - (1 - 1)) eq_refl) as (x & Hx & _ & _ & Hb).
      rewrite Hx. f_equal. rewrite Hb; cbn; lra.
Defined.

(** X3: when the policy assigns the log-probabilities of the reference,
    every entry of the DPO loss is [ln 2], whatever [beta] and
    [label_smoothing] are, every entry of the hinge loss is 1, and all
    rewards are zero. *)
Theorem losses_at_reference (dpo : DPOLoss.t) (rso : RSOLoss.t) p r n :
  batch_shape n p -> batch_shape n r ->
  data (chosen_logps p) = data (chosen_logps r) ->
  data (rejected_logps p) = data (rejected_logps r) ->
  omap (fun out => (data (fst (fst out)), data (snd (fst out)), data (snd out)))
    (DPOLoss.forward dpo p r)
  = Ok (replicate n (ln 2), replicate n 0, replicate n 0) /\
  omap (fun out => (data (fst (fst out)), data (snd (fst out)), data (snd out)))
    (RSOLoss.forward rso p r)
  = Ok (replicate n 1, replicate n 0, replicate n 0).
Proof.
  intros Hp Hr Hc Hj.
  rewrite (dpo_forward_data dpo p r n Hp Hr), (rso_forward_data rso p r n Hp Hr).
  assert (Hl : logits_of p r = replicate n 0).
  { unfold logits_of. rewrite Hc, Hj, zip_sub_diag, length_zip_with.
    destruct Hr as [-> ->]. rewrite Nat.min_id. reflexivity. }
  destruct Hr as [Hrc Hrr]. cbn. rewrite Hl, Hc, Hj, !zip_sub_diag, Hrc, Hrr.
  rewrite !fmap_replicate. split; do 2 f_equal.
  - do 2 f_equal.
    + unfold spec_dpo_loss. rewrite Rmult_0_r, Ropp_0, ln_sigmoid_0. ring.
    + ring.
  - f_equal. ring.
  - do 2 f_equal.
    + unfold spec_hinge_loss, Rmax.
      destruct (Rle_dec 0 (1 - RSOLoss.gamma rso * 0)); lra.
    + ring.
  - f_equal. ring.
Qed.

Lemma losses_at_reference_witness :
  omap (fun out => (data (fst (fst out)), data (snd (fst out)), data (snd out)))
    (DPOLoss.forward (DPOLoss.__init__ (1 / 2) (1 / 10)) batch_reference batch_reference)
  = Ok ([ln 2; ln 2], [0; 0], [0; 0]) /\
  omap (fun out => (data (fst (fst out)), data (snd (fst out)), data (snd out)))
    (RSOLoss.forward (RSOLoss.__init__ 3) batch_reference batch_reference)
  = Ok ([1; 1], [0; 0], [0; 0]).
Proof.
  apply (losses_at_reference (DPOLoss.__init__ (1 / 2) (1 / 10)) (RSOLoss.__init__ 3)
           batch_reference batch_reference 2%nat); try reflexivity; split; reflexivity.
Defined.

(** ** Symmetry and gradient flow *)



(** X8: the losses stay attached to the autograd graph: the loss tensor of
    either variant requires gradient exactly when one of the four
    log-probability inputs does. *)
Theorem losses_stay_attached (dpo : DPOLoss.t) (rso : RSOLoss.t) p r n :
  batch_shape n p -> batch_shape n r ->
  omap (fun out => requires_grad (fst (fst out))) (DPOLoss.forward dpo p r)
    = Ok (inputs_require_grad p r) /\
  omap (fun out => requires_grad (fst (fst out))) (RSOLoss.forward rso p r)
    = Ok (inputs_require_grad p r).
Proof.
  intros Hp Hr.
  rewrite (dpo_forward_data dpo p r n Hp Hr), (rso_forward_data rso p r n Hp Hr).
  cbn. rewrite orb_diag. split; reflexivity.
Qed.

Lemma losses_stay_attached_witness :
  omap (fun out => requires_grad (fst (fst out)))
    (DPOLoss.forward (DPOLoss.__init__ (1 / 10) 0) batch_policy batch_reference)
    = Ok true /\
  omap (fun out => requires_grad (fst (fst out)))
    (RSOLoss.forward (RSOLoss.__init__ (1 / 10)) batch_reference batch_reference)
    = Ok false.
Proof.
  split.
  - apply (losses_stay_attached (DPOLoss.__init__ (1 / 10) 0) (RSOLoss.__init__ (1 / 10))
             batch_policy batch_reference 2%nat); split; reflexivity.
  - apply (losses_stay_attached (DPOLoss.__init__ (1 / 10) 0) (RSOLoss.__init__ (1 / 10))
             batch_reference batch_reference 2%nat); split; reflexivity.
Defined.

End RlhfProperties.

(** * Further properties of the vision transform *)

Section TransformProperties.
Context {P : Payload} {E : External}.
Local Open Scope py_scope.

(** ** Running the image loop *)

Lemma for_each_app {A S} (xs ys : list A) (body : S -> A -> M S) acc h :
  for_each (xs ++ ys) body acc h =
  bind (for_each xs body acc) (fun acc' => for_each ys body acc') h.
Proof.
  revert acc h. induction xs as [|x xs IH]; intros acc h; cbn.
  - reflexivity.
  - unfold bind. destruct (body acc x h) as [[acc1|e] h1]; [|reflexivity].
    rewrite IH. reflexivity.
Qed.

(** The nested loops visit the media items in the order of [all_media]. *)
Lemma image_loop_flat {S} (body : S -> RawImage -> M S) ms acc h :
  for_each ms (fun acc' message => for_each (get_media message) body acc') acc h =
  for_each (all_media ms) body acc h.
Proof.
  revert acc h. induction ms as [|m ms IH]; intros acc h; cbn.
  - reflexivity.
  - unfold all_media. cbn. rewrite for_each_app. unfold bind.
    destruct (for_each (get_media m) body acc h) as [[acc1|e] h1]; [|reflexivity].
    apply IH.
Qed.

Lemma append_image_run self inference acc image out h :
  transformed_by self inference h image out ->
  append_image self inference acc image h =
  (Ok {| images := images acc ++ [out_image out];
         aspect_ratio := aspect_ratio acc ++ [out_aspect_ratio out] |}, h).
Proof.
  intros (s & c & Hs & Hc & Hout).
  unfold append_image, CLIPImageTransform_call, bind, transform_attr,
    image_transform_attr, read, ret.
  rewrite Hs, Hc, Hout. reflexivity.
Qed.

Lemma append_image_fail self inference acc image s c e (h : heap) :
  h !! self = Some (OTransform s) ->
  h !! transform_image s = Some (OImageTransform c) ->
  clip_transform c image inference = Raise e ->
  append_image self inference acc image h = (Raise e, h).
Proof.
  intros Hs Hc Hout.
  unfold append_image, CLIPImageTransform_call, bind, transform_attr,
    image_transform_attr, read, ret.
  rewrite Hs, Hc, Hout. reflexivity.
Qed.

Lemma flat_loop_run self inference imgs : forall outs acc h,
  Forall2 (transformed_by self inference h) imgs outs ->
  for_each imgs (append_image self inference) acc h =
  (Ok {| images := images acc ++ (out_image <$> outs);
         aspect_ratio := aspect_ratio acc ++ (out_aspect_ratio <$> outs) |}, h).
Proof.
  induction imgs as [|image imgs IH]; intros outs acc h Hall.
  - apply Forall2_nil_inv_l in Hall as ->. cbn. rewrite !app_nil_r.
    destruct acc; reflexivity.
  - apply Forall2_cons_inv_l in Hall as (out & outs' & Hout & Hall & ->).
    cbn. unfold bind. rewrite (append_image_run _ _ _ _ _ _ Hout).
    rewrite (IH _ _ _ Hall). cbn. rewrite <- !app_assoc. reflexivity.
Qed.

Lemma transformed_by_of_component self inference s c (h : heap) imgs outs :
  h !! self = Some (OTransform s) ->
  h !! transform_image s = Some (OImageTransform c) ->
  Forall2 (fun image out => clip_transform c image inference = Ok out) imgs outs ->
  Forall2 (transformed_by self inference h) imgs outs.
Proof.
  intros Hs Hc Hall. eapply Forall2_impl; [exact Hall|].
  intros image out Hout. exists s, c. auto.
Qed.

Lemma bind_run {A B} (m : M A) (k : A -> M B) h a h1 :
  m h = (Ok a, h1) -> bind m k h = k a h1.
Proof. unfold bind. intros ->. reflexivity. Qed.

Lemma bind_fail {A B} (m : M A) (k : A -> M B) h e h1 :
  m h = (Raise e, h1) -> bind m k h = (Raise e, h1).
Proof. unfold bind. intros ->. reflexivity. Qed.

Lemma getitem_run sample key v d (h : heap) :
  h !! sample = Some (OSample d) -> d !! key = Some v ->
  getitem sample key h = (Ok v, h).
Proof. intros Hd Hk. unfold getitem. rewrite Hd, Hk. reflexivity. Qed.






(** ** Errors of [__call__] *)

(** X9: a sample without the key [messages] makes [__call__] raise
    [KeyError "messages"] before anything else happens: the store is left as
    it was, whatever [self] refers to. *)
Theorem call_without_messages self sample inference (h : heap) d :
  h !! sample = Some (OSample d) ->
  d !! "messages" = None ->
  __call__ self sample inference h = (Raise (KeyError "messages"), h).
Proof.
  intros Hd Hk. unfold __call__, bind, getitem. cbv zeta. rewrite Hd, Hk.
  reflexivity.
Qed.

(** X10: if the image transform raises on some media item after succeeding
    on all earlier ones, [__call__] raises that error and leaves the store,
    and so the caller's sample, exactly as it was: nothing is attached and
    the tokenizer is not reached. *)
Theorem call_image_failure self sample inference (h : heap) s c d ms
    pre image post outs e :
  h !! self = Some (OTransform s) ->
  h !! transform_image s = Some (OImageTransform c) ->
  h !! sample = Some (OSample d) ->
  d !! "messages" = Some (VMessages ms) ->
  all_media ms = pre ++ image :: post ->
  Forall2 (fun img out => clip_transform c img inference = Ok out) pre outs ->
  clip_transform c image inference = Raise e ->
  __call__ self sample inference h = (Raise e, h).
Proof.
  intros Hs Hc Hd Hms Hsplit Hpre Hfail.
  unfold __call__. cbv zeta.
  rewrite (bind_run _ _ _ _ _ (getitem_run _ _ _ _ _ Hd Hms)).
  rewrite (bind_run (as_messages (VMessages ms)) _ h ms h eq_refl).
  apply bind_fail.
  rewrite (image_loop_flat _ ms), Hsplit, for_each_app.
  erewrite bind_run.
  2:{ apply flat_loop_run.
      apply (transformed_by_of_component _ _ _ _ _ _ _ Hs Hc Hpre). }
  cbn [for_each]. apply bind_fail.
  apply (append_image_fail _ _ _ _ _ _ _ _ Hs Hc Hfail).
Qed.


(** ** Successful calls *)



(** ** Construction *)

(** X14: a construction that returns has called the three component
    constructors in the order tokenizer, image transform, mask builder; the
    image transform is configured with no explicit resolutions, bilinear
    resampling and no resize to the maximal canvas; the mask builder
    receives the tokenizer's image-token id; the new transform holds the
    three references and the [max_seq_len] and [prompt_template] it was
    given, under a reference that was free, and no existing object is
    changed by entering it. *)
Theorem init_wires_components path tile_size patch_size tiles
    special_tokens_path msl image_mean image_std template h self h' :
  __init__ path tile_size patch_size tiles special_tokens_path msl
    image_mean image_std template h = (Ok self, h') ->
  exists tok h1 ti h2 t xm h3 s,
    llama3_tokenizer path special_tokens_path msl template h = (Ok tok, h1) /\
    CLIPImageTransform_new image_mean image_std tile_size None tiles
      "bilinear" false h1 = (Ok ti, h2) /\
    h2 !! tok = Some (OTokenizer t) /\
    VisionCrossAttentionMask_new tile_size patch_size (Llama3Tokenizer.image_id t) h2
      = (Ok xm, h3) /\
    h3 !! self = None /\
    h' = <[self := OTransform s]> h3 /\
    tokenizer s = tok /\ transform_image s = ti /\ xattn_mask s = xm /\
    max_seq_len s = msl /\ prompt_template s = template.
Proof.
  unfold __init__. intros H.
  apply bind_ok in H as (tok & h1 & Htok & H).
  apply bind_ok in H as (ti & h2 & Hti & H).
  apply bind_ok in H as (iid & h2' & Hi & H).
  apply tokenizer_attr_ok in Hi as (-> & t & Ht & ->).
  apply bind_ok in H as (xm & h3 & Hxm & H).
  apply bind_ok in H as (st & h3' & Ha & H).
  apply tokenizer_attr_ok in Ha as (-> & _).
  apply bind_ok in H as (sp & h3' & Ha & H).
  apply tokenizer_attr_ok in Ha as (-> & _).
  apply bind_ok in H as (ppt & h3' & Ha & H).
  apply xattn_attr_ok in Ha as (-> & _).
  apply bind_ok in H as (pid & h3' & Ha & H).
  apply tokenizer_attr_ok in Ha as (-> & _).
  unfold alloc in H. injection H as <- <-.
  exists tok, h1, ti, h2, t, xm, h3. eexists.
  repeat split; try eassumption; try reflexivity.
  apply not_elem_of_dom, is_fresh.
Qed.

(** X15: an error raised by one of the three component constructors is the
    error of the construction, later constructors are not called, and the
    store is the one the failing constructor left. *)
Theorem init_propagates_constructor_errors path tile_size patch_size tiles
    special_tokens_path msl image_mean image_std template (h : heap) :
  (forall e h1,
     llama3_tokenizer path special_tokens_path msl template h = (Raise e, h1) ->
     __init__ path tile_size patch_size tiles special_tokens_path msl
       image_mean image_std template h = (Raise e, h1)) /\
  (forall tok h1 e h2,
     llama3_tokenizer path special_tokens_path msl template h = (Ok tok, h1) ->
     CLIPImageTransform_new image_mean image_std tile_size None tiles
       "bilinear" false h1 = (Raise e, h2) ->
     __init__ path tile_size patch_size tiles special_tokens_path msl
       image_mean image_std template h = (Raise e, h2)) /\
  (forall tok h1 ti h2 t e h3,
     llama3_tokenizer path special_tokens_path msl template h = (Ok tok, h1) ->
     CLIPImageTransform_new image_mean image_std tile_size None tiles
       "bilinear" false h1 = (Ok ti, h2) ->
     h2 !! tok = Some (OTokenizer t) ->
     VisionCrossAttentionMask_new tile_size patch_size (Llama3Tokenizer.image_id t) h2
       = (Raise e, h3) ->
     __init__ path tile_size patch_size tiles special_tokens_path msl
       image_mean image_std template h = (Raise e, h3)).
Proof.
  split; [|split].
  - intros e h1 H. unfold __init__, bind at 1. rewrite H. reflexivity.
  - intros tok h1 e h2 H1 H2. unfold __init__, bind at 1. rewrite H1.
    unfold bind at 1. rewrite H2. reflexivity.
  - intros tok h1 ti h2 t e h3 H1 H2 Ht H3. unfold __init__, bind at 1. rewrite H1.
    unfold bind at 1. rewrite H2.
    unfold bind at 1, tokenizer_attr at 1. rewrite Ht.
    unfold bind at 1. rewrite H3. reflexivity.
Qed.

End TransformProperties.

(** * The further properties on concrete samples *)

Module ExampleProperties.
Import Example.
Local Open Scope Z_scope.

Lemma ex_components :
  ex_heap !! ex_self = Some (OTransform ex_transform) /\
  ex_heap !! tokenizer ex_transform = Some (OTokenizer ex_tokenizer_obj) /\
  ex_heap !! transform_image ex_transform = Some (OImageTransform ex_image_transform_obj) /\
  ex_heap !! xattn_mask ex_transform = Some (OCrossAttentionMask ex_xattn_obj).
Proof. vm_compute. repeat split. Qed.

Lemma with_sample_components ms :
  with_sample ms !! ex_self = Some (OTransform ex_transform) /\
  with_sample ms !! tokenizer ex_transform = Some (OTokenizer ex_tokenizer_obj) /\
  with_sample ms !! transform_image ex_transform
    = Some (OImageTransform ex_image_transform_obj) /\
  with_sample ms !! xattn_mask ex_transform = Some (OCrossAttentionMask ex_xattn_obj) /\
  with_sample ms !! ex_sample = Some (OSample {[ "messages" := VMessages ms ]}).
Proof.
  destruct ex_components as (H1 & H2 & H3 & H4). unfold with_sample.
  rewrite !lookup_insert_ne by discriminate. rewrite lookup_insert_eq. auto.
Qed.

Lemma call_without_messages_witness :
  __call__ ex_self ex_sample false (with_mapping {[ "images" := VNone ]})
  = (Raise (KeyError "messages"), with_mapping {[ "images" := VNone ]}).
Proof.
  apply (call_without_messages ex_self ex_sample false _ {[ "images" := VNone ]}).
  - apply lookup_insert_eq.
  - reflexivity.
Defined.

(** The second of three images has no width: the call raises on it and the
    sample stays as the caller made it. *)
Lemma call_image_failure_witness :
  __call__ ex_self ex_sample false (with_sample ex_bad_image)
  = (Raise ImageTransformError, with_sample ex_bad_image).
Proof.
  destruct (with_sample_components ex_bad_image) as (Hs & _ & Hc & _ & Hd).
  apply (@call_image_failure payload external ex_self ex_sample false _ ex_transform
           ex_image_transform_obj _ ex_bad_image
           [(224, 224)] (0, 224) [(224, 448)]
           [ @Build_ImageOut payload (224, 224) (1, 1) ]
           ImageTransformError Hs Hc Hd).
  - reflexivity.
  - reflexivity.
  - repeat constructor.
  - reflexivity.
Defined.




Lemma init_wires_components_witness :
  exists t s,
    ex_heap !! ex_tokenizer = Some (OTokenizer t) /\
    ex_heap !! ex_self = Some (OTransform s) /\
    tokenizer s = ex_tokenizer /\
    (exists x, ex_heap !! xattn_mask s = Some (OCrossAttentionMask x) /\
               VisionCrossAttentionMask.image_token_id x = Llama3Tokenizer.image_id t).
Proof.
  destruct (init_wires_components "/path/to/tokenizer.model" 224 14
              default_max_num_tiles None None None None None ∅ ex_self ex_heap)
    as (tok & h1 & ti & h2 & t & xm & h3 & s & Htok & Hti & Ht & Hxm & Hfree
        & Hh & Hst & Hsi & Hsx & _).
  { vm_compute. reflexivity. }
  assert (Hs : ex_heap !! ex_self = Some (OTransform s))
    by (rewrite Hh; apply lookup_insert_eq).
  rewrite (proj1 ex_components) in Hs. injection Hs as <-.
  exists ex_tokenizer_obj, ex_transform.
  destruct ex_components as (H1 & H2 & _ & H4).
  split; [exact H2|]. split; [exact H1|]. split; [reflexivity|].
  exists ex_xattn_obj. split; [exact H4 | reflexivity].
Defined.

(** An empty tokenizer path, and a patch size of zero. *)
Lemma init_propagates_constructor_errors_witness :
  __init__ "" 224 14 default_max_num_tiles None None None None None ∅
    = (Raise LoadError, ∅) /\
  fst (__init__ "/path/to/tokenizer.model" 224 0 default_max_num_tiles
         None None None None None ∅) = Raise TypeError.
Proof.
  split.
  - apply (proj1 (init_propagates_constructor_errors "" 224 14 default_max_num_tiles
                    None None None None None ∅)).
    reflexivity.
  - erewrite (proj2 (proj2 (init_propagates_constructor_errors
                              "/path/to/tokenizer.model" 224 0 default_max_num_tiles
                              None None None None None ∅))
                3%positive _ 4%positive _ ex_tokenizer_obj TypeError).
    + reflexivity.
    + vm_compute. reflexivity.
    + vm_compute. reflexivity.
    + vm_compute. reflexivity.
    + vm_compute. reflexivity.
Defined.

End ExampleProperties.
